(** * Multimodal embedding and retrieval: a shallow embedding

    The development follows the two source files of the repository:

    - [haystack/modeling/model/multimodal_language_model.py]: the wrapper
      classes around pretrained encoders, the validation done by [forward]
      and the resolution of a wrapper class by [get_mm_language_model];
    - [haystack/nodes/retriever/multimodal.py]: the document converters,
      [MultiModalEmbedder.embed] with its batching loop, and
      [MultiModalRetriever.retrieve] / [retrieve_batch].

    Python exceptions are values of [exn]; a call that can raise returns a
    [result].  The collaborators the repository does not own are taken as
    given: the pretrained models, the feature extractors and the document
    store are fields of the records that hold them, the image decoder is an
    argument of the functions that reach it. *)

From Stdlib Require Import ZArith Lia Ascii String DecimalString.
From stdpp Require Import base strings list gmap.

Local Open Scope string_scope.
Local Open Scope list_scope.

#[local] Set Warnings "-clear-no-such-hyp".

(** ** Exceptions and results *)

Inductive exn : Type :=
| ModelingError (msg : string)
| MultiModalRetrieverError (msg : string)
| ValueError (msg : string)
| IndexError
| KeyError
| TypeError
| AttributeError
| RuntimeError
| UnboundLocalError
| CollaboratorError (msg : string).

Inductive result (A : Type) : Type :=
| Ok (a : A)
| Raise (e : exn).
Arguments Ok {A} a.
Arguments Raise {A} e.

#[global] Instance result_ret : MRet result := fun _ a => Ok a.
#[global] Instance result_bind : MBind result := fun _ _ f m =>
  match m with
  | Ok a => f a
  | Raise e => Raise e
  end.
#[global] Instance result_fmap : FMap result := fun _ _ f m =>
  match m with
  | Ok a => Ok (f a)
  | Raise e => Raise e
  end.

(** ** Python strings *)

Module PyStr.

(** [sep.join(parts)] *)
Definition join (sep : string) (parts : list string) : string :=
  String.concat sep parts.

(** [str.lower] on the ASCII range. *)
Definition lower_ascii (c : ascii) : ascii :=
  let n := Ascii.nat_of_ascii c in
  if (65 <=? n)%nat && (n <=? 90)%nat then Ascii.ascii_of_nat (n + 32) else c.

Fixpoint lower (s : string) : string :=
  match s with
  | EmptyString => EmptyString
  | String c s' => String (lower_ascii c) (lower s')
  end.

(** [s[-1]]: the last character, [IndexError] on the empty string. *)
Fixpoint last (s : string) : result ascii :=
  match s with
  | EmptyString => Raise IndexError
  | String c EmptyString => Ok c
  | String _ s' => last s'
  end.

(** [s[:-1]]: everything but the last character (the empty string stays
    empty). *)
Fixpoint but_last (s : string) : string :=
  match s with
  | EmptyString => EmptyString
  | String _ EmptyString => EmptyString
  | String c s' => String c (but_last s')
  end.

(** [sorted(names)] on strings: Python compares code points, which on
    ASCII names is the lexicographic order of [String.leb]. *)
Fixpoint insert_sorted (x : string) (l : list string) : list string :=
  match l with
  | [] => [x]
  | y :: l' => if String.leb x y then x :: l else y :: insert_sorted x l'
  end.

Definition sorted (l : list string) : list string :=
  foldr insert_sorted [] l.

(** [str(n)] for a natural number. *)
Definition of_nat (n : nat) : string :=
  NilZero.string_of_uint (Nat.to_uint n).

Definition newline : string := String (Ascii.ascii_of_nat 10) EmptyString.

(** [part in whole]: the text [part] occurs in [whole]. *)
Definition occurs_in (part whole : string) : Prop :=
  ∃ before after, whole = before +:+ part +:+ after.

End PyStr.

(** ** Tensors

    A two-dimensional tensor of shape [[n, d]]: its rows, and the last
    dimension [d] that the source reads as [output.shape[-1]] (it is part of
    the shape, so it is defined also when there is no row). *)

Section Tensors.
Context {scalar : Type}.

Record Tensor : Type := mkTensor {
  t_rows : list (list scalar);
  t_dim : nat
}.

Definition shape (t : Tensor) : nat * nat := (length (t_rows t), t_dim t).

End Tensors.
Arguments Tensor scalar : clear implicits.

(** * [multimodal_language_model.py] *)

Module LanguageModel.
Section WithTypes.
Context {scalar feature : Type}.

(** The concrete wrapper classes ([MultiModalLanguageModel] and
    [MultiModalLanguageModelPlusPooler] are abstract: they leave
    [expected_inputs] undefined). *)
Inductive WrapperClass : Type :=
| TextLanguageModel
| TextLanguageModelPlusPooler
| ImageLanguageModel.

(** [expected_inputs]: the mandatory and the optional argument names. *)
Definition expected_inputs (c : WrapperClass) : gset string * gset string :=
  match c with
  | TextLanguageModel | TextLanguageModelPlusPooler =>
      ({[ "input_ids"; "token_type_ids"; "attention_mask" ]}, ∅)
  | ImageLanguageModel =>
      ({[ "pixel_values" ]}, {[ "bool_masked_pos"; "head_mask" ]})
  end.

(** What the wrapped transformers model returns. *)
Record ModelOutput : Type := {
  pooler_output : Tensor scalar;
  last_hidden_state : Tensor scalar
}.

(** A loaded wrapper: its class, the wrapped model [self.model] and, for
    the pooler-augmented class, [self.pooler]. *)
Record MultiModalLanguageModel : Type := {
  lm_class : WrapperClass;
  lm_model_type : string;
  lm_model : gmap string feature -> result ModelOutput;
  lm_pooler : ModelOutput -> result (Tensor scalar)
}.

(** A computation that records the keyword arguments of every call made
    to the wrapped model. *)
Definition Logged (A : Type) : Type := list (gmap string feature) * result A.

(** [_forward]: the inference hook.  The base classes return the pooler
    output of the wrapped model, the pooler-augmented class feeds the
    output to its own pooler. *)
Definition _forward (lm : MultiModalLanguageModel) (kwargs : gmap string feature)
  : Logged (Tensor scalar) :=
  ([kwargs],
   match lm_class lm with
   | TextLanguageModel | ImageLanguageModel =>
       output ← lm_model lm kwargs; mret (pooler_output output)
   | TextLanguageModelPlusPooler =>
       output ← lm_model lm kwargs; lm_pooler lm output
   end).

Definition forward_error_message (kwargs : gmap string feature)
    (mandatory_args all_args : gset string) : string :=
  "The input parameters do not match the model's expectations." +:+ PyStr.newline
  +:+ "Input names: " +:+ PyStr.join ", " (PyStr.sorted (elements (dom kwargs)))
  +:+ PyStr.newline
  +:+ "Expected: " +:+ PyStr.join ", " (PyStr.sorted (elements all_args))
  +:+ " (where " +:+ PyStr.join ", " (PyStr.sorted (elements mandatory_args))
  +:+ " are mandatory)".

(** [forward], called with keyword arguments [kwargs]. *)
Definition forward (lm : MultiModalLanguageModel) (kwargs : gmap string feature)
  : Logged (Tensor scalar) :=
  let '(mandatory_args, optional_args) := expected_inputs (lm_class lm) in
  let all_args := mandatory_args ∪ optional_args in
  let given_args := dom kwargs in
  if negb (bool_decide (mandatory_args ⊆ given_args)
           && bool_decide (given_args ⊆ all_args))
  then ([], Raise (ModelingError
                     (forward_error_message kwargs mandatory_args all_args)))
  else _forward lm kwargs.

(** ** Model resolution *)

(** [HUGGINGFACE_TO_HAYSTACK], in the order of the dict literal. *)
Definition HUGGINGFACE_TO_HAYSTACK : list (string * WrapperClass) :=
  [ ("AutoModel", TextLanguageModel);
    ("Data2VecTextForQuestionAnswering", TextLanguageModel);
    ("Data2VecVisionForImageClassification", ImageLanguageModel) ].

(** A dict built from key/value pairs in order: a later pair overrides an
    earlier one with the same key. *)
Definition dict_of {V} (items : list (string * V)) : gmap string V :=
  foldl (fun m kv => <[ kv.1 := kv.2 ]> m) ∅ items.

(** [HUGGINGFACE_CAPITALIZE]: the two aliases, then every registry key
    under its lower-case spelling. *)
Definition HUGGINGFACE_CAPITALIZE : gmap string string :=
  dict_of ([ ("data2vec-text", " Data2VecTextForQuestionAnswering");
             ("data2vec-vision", "Data2VecVisionForImageClassification") ]
           ++ map (fun k => (PyStr.lower k, k)) (HUGGINGFACE_TO_HAYSTACK.*1)).

(** [HUGGINGFACE_DEFAULT_MODEL_PARAMS]; a parameter value is kept as the
    text of its literal. *)
Definition HUGGINGFACE_DEFAULT_MODEL_PARAMS : gmap string (gmap string string) :=
  {[ "Data2VecVisionForImageClassification" := {[ "add_pooling_layer" := "True" ]} ]}.

(** [a | b] on dicts: the right operand wins on a shared key. *)
Definition dict_or {V} (a b : gmap string V) : gmap string V := b ∪ a.

(** The configuration object of [AutoConfig.from_pretrained]. *)
Record Config : Type := { model_type : option string }.

(** The collaborators of the loader: the configuration lookup, and
    [getattr(transformers, model_type).from_pretrained(name, **params)]
    together with the pooler a wrapper may build on top of it. *)
Record Transformers : Type := {
  AutoConfig_from_pretrained : string -> result Config;
  from_pretrained :
    string -> string -> gmap string string ->
    result ((gmap string feature -> result ModelOutput)
            * (ModelOutput -> result (Tensor scalar)))
}.

(** The constructor shared by the wrapper classes. *)
Definition new_language_model (hf : Transformers) (cls : WrapperClass)
    (pretrained_model_name_or_path model_type : string)
    (model_kwargs : option (gmap string string))
  : result MultiModalLanguageModel :=
  let model_params :=
    dict_or (default ∅ (HUGGINGFACE_DEFAULT_MODEL_PARAMS !! model_type))
            (default ∅ model_kwargs) in
  '(model, pooler) ← from_pretrained hf model_type pretrained_model_name_or_path
                       model_params;
  mret {| lm_class := cls; lm_model_type := model_type;
          lm_model := model; lm_pooler := pooler |}.

Definition unsupported_model_message (name model_type : string) : string :=
  "The type of the given model (name/path: " +:+ name +:+ ", detected type: "
  +:+ model_type +:+ ") is not supported by Haystack or was not correctly identified. "
  +:+ "Please use supported models only. Supported model types: "
  +:+ PyStr.join ", " (HUGGINGFACE_TO_HAYSTACK.*1).

(** [get_mm_language_model] *)
Definition get_mm_language_model (hf : Transformers)
    (pretrained_model_name_or_path : string)
    (model_kwargs : option (gmap string string))
  : result MultiModalLanguageModel :=
  if bool_decide (pretrained_model_name_or_path = "")
  then Raise (ValueError (pretrained_model_name_or_path
                +:+ " is not a valid pretrained_model_name_or_path parameter"))
  else
    let model_name := pretrained_model_name_or_path in
    config ← AutoConfig_from_pretrained hf model_name;
    (* a missing model type is only logged; [None.lower()] then raises *)
    detected ← match model_type config with
               | Some t => Ok t
               | None => Raise AttributeError
               end;
    let model_type :=
      default "AutoModel" (HUGGINGFACE_CAPITALIZE !! PyStr.lower detected) in
    match list_find (fun kv => kv.1 = model_type) HUGGINGFACE_TO_HAYSTACK with
    | None => Raise (ValueError (unsupported_model_message
                                   pretrained_model_name_or_path model_type))
    | Some (_, (_, language_model_class)) =>
        new_language_model hf language_model_class
          pretrained_model_name_or_path model_type model_kwargs
    end.

End WithTypes.
Arguments WrapperClass : clear implicits.
Arguments MultiModalLanguageModel scalar feature : clear implicits.
Arguments ModelOutput scalar : clear implicits.
Arguments Transformers scalar feature : clear implicits.

(** ** Silencing the logs of the loader *)

(** The level of the [transformers] logger, the only state the decorator
    touches; [logging.ERROR] is 40. *)
Definition ERROR : Z := 40.

(** [silence_transformers_logs]: the decorated function runs with the
    logger at [ERROR] and may itself change the level; the level is put
    back only when the function returns, since the wrapper has no
    [finally]. *)
Definition silence_transformers_logs {A}
    (from_pretrained_func : Z -> Z * result A) (level : Z) : Z * result A :=
  let original_log_level := level in
  let '(level_after, outcome) := from_pretrained_func ERROR in
  match outcome with
  | Ok r => (original_log_level, Ok r)
  | Raise e => (level_after, Raise e)
  end.

End LanguageModel.

Import LanguageModel.

(** * [multimodal.py] *)

Module Retriever.
Section WithTypes.
Context {scalar feature pil_image : Type}.

(** ** Python dicts whose order matters, as association lists *)

Definition dict_get {V} (key : string) (d : list (string * V)) : option V :=
  snd <$> find (fun kv => bool_decide (kv.1 = key)) d.

(** [d[key].append(x)], [KeyError] when the key is absent. *)
Fixpoint dict_append {V} (key : string) (x : V) (d : list (string * list V))
  : result (list (string * list V)) :=
  match d with
  | [] => Raise KeyError
  | (k, values) :: d' =>
      if bool_decide (k = key) then Ok ((k, values ++ [x]) :: d')
      else rest ← dict_append key x d'; mret ((k, values) :: rest)
  end.

(** A loop body run over a list, stopping at the first exception. *)
Fixpoint for_each {A S} (body : S -> A -> result S) (items : list A) (s : S)
  : result S :=
  match items with
  | [] => Ok s
  | x :: items' => s' ← body s x; for_each body items' s'
  end.

Fixpoint map_result {A B} (f : A -> result B) (items : list A) : result (list B) :=
  match items with
  | [] => Ok []
  | x :: items' => y ← f x; ys ← map_result f items'; mret (y :: ys)
  end.

(** ** Documents *)

(** Modelled from the spec: [haystack.schema] is not among the sources.
    [ContentTypes] is the literal type of the content-type tags, which the
    spec gives as text, table and image. *)
Definition ContentTypes : list string := ["text"; "table"; "image"].

(** The raw payload of a document: a string (a text, or the reference of
    an image) or a table with its column names and its rows of cells. *)
Inductive Content : Type :=
| StrContent (s : string)
| TableContent (columns : list string) (values : list (list string)).

(** Modelled from the spec: the [Document] class of [haystack.schema],
    with the fields the spec lists and the code reads. *)
Record Document : Type := {
  content : Content;
  content_type : string;
  meta : option (list (string * string));
  embedding : option (list scalar);
  score : option scalar
}.

(** [Document(content=query, content_type=content_type)] *)
Definition new_document (query content_type : string) : Document :=
  {| content := StrContent query; content_type := content_type;
     meta := Some []; embedding := None; score := None |}.

(** What a converter hands to a feature extractor or a model. *)
Inductive Payload : Type :=
| PStr (s : string)
| PImage (img : pil_image).

(** [Image.open] of PIL. *)
Variable Image_open : string -> result pil_image.

(** The three functions of [DOCUMENT_CONVERTERS].  The text converter
    indexes the content ([content[-1]], which raises on an empty string,
    and on a table, which has no such column); the table converter reads
    [columns] and [values], which a string does not have. *)
Definition convert_text (doc : Document) : result Payload :=
  match content doc with
  | StrContent s =>
      c ← PyStr.last s;
      mret (PStr (if Ascii.eqb c "?" then PyStr.but_last s else s))
  | TableContent _ _ => Raise KeyError
  end.

Definition convert_table (doc : Document) : result Payload :=
  match content doc with
  | TableContent columns values =>
      Ok (PStr (PyStr.join " " (columns ++ concat values)))
  | StrContent _ => Raise AttributeError
  end.

Definition convert_image (doc : Document) : result Payload :=
  match content doc with
  | StrContent path => PImage <$> Image_open path
  | TableContent _ _ => Raise AttributeError
  end.

Definition DOCUMENT_CONVERTERS : list (string * (Document -> result Payload)) :=
  [ ("text", convert_text); ("table", convert_table); ("image", convert_image) ].

Definition CAN_EMBED_META : list string := ["text"; "table"].

Inductive SampleClass : Type := TextSample | ImageSample.

Definition SAMPLES_BY_DATATYPE : list (string * SampleClass) :=
  [ ("text", TextSample); ("table", TextSample); ("image", ImageSample) ].

(** A feature extractor, seen through the one call made on it:
    [sample_class.get_features(data, feature_extractor, extraction_params)]
    with the extraction parameters of its content type, and through the
    text [repr] gives for it. *)
Record FeatureExtractor : Type := {
  sample_features : SampleClass -> list Payload -> result (gmap string feature);
  extractor_repr : string
}.

(** [get_features] *)
Definition get_features (data : list Payload) (data_type : string)
    (feature_extractor : FeatureExtractor) : result (gmap string feature) :=
  match dict_get data_type SAMPLES_BY_DATATYPE with
  | None =>
      Raise (ModelingError
               ("Data type '" +:+ data_type +:+ "' not recognized. "
                +:+ "Please select one data type among "
                +:+ PyStr.join ", " (SAMPLES_BY_DATATYPE.*1)))
  | Some sample_class => sample_features feature_extractor sample_class data
  end.

(** ** The embedder *)

(** What [__init__] builds for one content type: a sentence-transformers
    model, which embeds raw data with [encode], or a wrapper from
    [get_mm_language_model] paired with its feature extractor. *)
Inductive Encoder : Type :=
| SentenceTransformer (encode : list Payload -> result (Tensor scalar))
| LanguageModel (model : MultiModalLanguageModel scalar feature)
                (feature_extractor : FeatureExtractor).

(** The embedder after construction, on a single device: [models] has
    every content type of [embedding_models], [feature_extractors] those
    whose encoder is not a sentence-transformers model. *)
Record MultiModalEmbedder : Type := {
  batch_size : Z;
  embed_meta_fields : list string;
  models : list (string * Encoder)
}.

(** [self.batch_size], where an argument is called [batch_size] too. *)
Definition self_batch_size (self : MultiModalEmbedder) : Z := batch_size self.

Definition feature_extractors (self : MultiModalEmbedder)
  : list (string * FeatureExtractor) :=
  omap (fun kv => match kv.2 with
                  | SentenceTransformer _ => None
                  | LanguageModel _ fe => Some (kv.1, fe)
                  end) (models self).

Definition unknown_content_type_message (content_type : string) : string :=
  "Unknown content type '" +:+ content_type +:+ "'. Known types: "
  +:+ PyStr.join ", " ContentTypes.

(** The body of the loop of [_docs_to_data] for one document. *)
Definition docs_to_data_step (self : MultiModalEmbedder)
    (docs_data : list (string * list Payload)) (doc : Document)
  : result (list (string * list Payload)) :=
  document_converter ←
    match dict_get (content_type doc) DOCUMENT_CONVERTERS with
    | Some converter => Ok converter
    | None => Raise (MultiModalRetrieverError
                       (unknown_content_type_message (content_type doc)))
    end;
  data ← document_converter doc;
  if bool_decide (embed_meta_fields self ≠ [])
     && bool_decide (content_type doc ∈ CAN_EMBED_META)
  then
    (* iterating a dict yields its keys; [doc.meta or []] *)
    let meta := PyStr.join " " ((default [] (meta doc)).*1) in
    dict_append (content_type doc)
      (if bool_decide (meta ≠ "")
       then match data with
            | PStr s => PStr (meta +:+ " " +:+ s)
            | PImage _ => data (* no converter of [CAN_EMBED_META] yields an image *)
            end
       else data)
      docs_data
  else dict_append (content_type doc) data docs_data.

(** What the loop of [_docs_to_data] appends for one document: the output
    of its converter, behind the metadata keys when these are embedded. *)
Definition document_payload (self : MultiModalEmbedder) (doc : Document)
  : result Payload :=
  document_converter ←
    match dict_get (content_type doc) DOCUMENT_CONVERTERS with
    | Some converter => Ok converter
    | None => Raise (MultiModalRetrieverError
                       (unknown_content_type_message (content_type doc)))
    end;
  data ← document_converter doc;
  if bool_decide (embed_meta_fields self ≠ [])
     && bool_decide (content_type doc ∈ CAN_EMBED_META)
  then
    let meta := PyStr.join " " ((default [] (meta doc)).*1) in
    if bool_decide (meta ≠ "")
    then match data with
         | PStr s => Ok (PStr (meta +:+ " " +:+ s))
         | PImage _ => Ok data
         end
    else Ok data
  else Ok data.

(** [_docs_to_data] *)
Definition _docs_to_data (self : MultiModalEmbedder) (documents : list Document)
  : result (list (string * list Payload)) :=
  docs_data ← for_each (docs_to_data_step self) documents
                (map (fun key => (key, [])) ContentTypes);
  mret (filter (fun kv => kv.2 ≠ []) docs_data).


(** ** Tensor operations of the numeric backend *)

(** [torch.stack(tensors)]: every tensor must have the shape of the
    first; the result has one more leading dimension. *)
Definition torch_stack (tensors : list (Tensor scalar))
  : result (list (Tensor scalar)) :=
  match tensors with
  | [] => Raise RuntimeError
  | t0 :: _ =>
      if forallb (fun t => bool_decide (shape t = shape t0)) tensors
      then Ok tensors
      else Raise RuntimeError
  end.

(** [outputs.view(-1, d)] on stacked tensors of shape [[n, d]]: the rows
    of the first tensor, then those of the second, and so on.  The free
    dimension cannot be inferred when [d] is zero. *)
Definition view_rows (stacked : list (Tensor scalar)) (d : nat)
  : result (Tensor scalar) :=
  if bool_decide (d = 0%nat) then Raise RuntimeError
  else Ok (mkTensor (concat (map t_rows stacked)) d).

(** The message of [np.concatenate] for arrays that differ in width: it
    names the first array whose width is not that of the array at index 0. *)
Definition concatenate_mismatch_message (a0 : Tensor scalar)
    (arrays : list (Tensor scalar)) : string :=
  "all the input array dimensions except for the concatenation axis must match exactly"
  +:+ match list_find (fun a => t_dim a ≠ t_dim a0) arrays with
      | Some (i, a) =>
          ", but along dimension 1, the array at index 0 has size "
          +:+ PyStr.of_nat (t_dim a0) +:+ " and the array at index "
          +:+ PyStr.of_nat i +:+ " has size " +:+ PyStr.of_nat (t_dim a)
      | None => ""
      end.

(** [np.concatenate(arrays)] along the first axis: at least one array,
    all of the same width. *)
Definition np_concatenate (arrays : list (Tensor scalar)) : result (Tensor scalar) :=
  match arrays with
  | [] => Raise (ValueError "need at least one array to concatenate")
  | a0 :: _ =>
      if forallb (fun a => bool_decide (t_dim a = t_dim a0)) arrays
      then Ok (mkTensor (concat (map t_rows arrays)) (t_dim a0))
      else Raise (ValueError (concatenate_mismatch_message a0 arrays))
  end.

(** [range(0, stop, step)] *)
Definition py_range (stop : nat) (step : Z) : result (list nat) :=
  if bool_decide (step = 0%Z) then Raise (ValueError "range() arg 3 must not be zero")
  else if bool_decide (step < 0)%Z then Ok []
  else let n := Z.to_nat step in
       Ok (map (fun k => k * n)%nat (seq 0 (Nat.div (stop + n - 1) n))).

(** [items[start : start + size]] for a non-negative [start]. *)
Definition slice {A} (items : list A) (start : nat) (size : Z) : list A :=
  take (Z.to_nat size) (drop start items).

(** ** [MultiModalEmbedder.embed] *)

(** The inputs kept for a content type: the raw data when the type has
    no feature extractor, its features otherwise. *)
Inductive Inputs : Type :=
| RawData (data_list : list Payload)
| Features (features : gmap string feature).

(** The message ends with the text of the dict [self.feature_extractors]. *)
Definition extraction_failed_message (self : MultiModalEmbedder)
    (data_type : string) : string :=
  "Could not extract features for data of type " +:+ data_type +:+ ". "
  +:+ "Check that your feature extractor is correct for this data type:"
  +:+ PyStr.newline
  +:+ "{" +:+ PyStr.join ", "
                (map (fun kv => "'" +:+ kv.1 +:+ "': " +:+ extractor_repr kv.2)
                     (feature_extractors self))
  +:+ "}".

Definition no_model_message (self : MultiModalEmbedder) (key : string) : string :=
  "Some input tensor were passed for models handling " +:+ key +:+ " data, "
  +:+ "but no such model was initialized. They will be ignored."
  +:+ "Initialized models: " +:+ PyStr.join ", " ((models self).*1).

(** The text of [{name: output.shape[-1] for name, output in ...}]. *)
Definition sizes_by_model (outputs_by_type : list (string * Tensor scalar)) : string :=
  "{" +:+ PyStr.join ", "
            (map (fun kv => "'" +:+ kv.1 +:+ "': " +:+ PyStr.of_nat (t_dim kv.2))
                 outputs_by_type)
  +:+ "}".

Definition embedding_size_message (outputs_by_type : list (string * Tensor scalar))
  : string :=
  "Some of the models are using a different embedding size. They should all match. "
  +:+ "Embedding sizes by model: " +:+ sizes_by_model outputs_by_type.

(** The features of one content type (the first half of the body of the
    loop over [data_by_type]).  Moving tensors to the device does not
    change them. *)
Definition features_of (self : MultiModalEmbedder) (data_type : string)
    (data_list : list Payload) : result Inputs :=
  match dict_get data_type (feature_extractors self) with
  | None => Ok (RawData data_list)
  | Some feature_extractor =>
      features ← get_features data_list data_type feature_extractor;
      if bool_decide (dom features = ∅)
      then Raise (ModelingError (extraction_failed_message self data_type))
      else Ok (Features features)
  end.

(** One pass of the loop that fills [outputs_by_type].  The branch is
    chosen by [data_type], the type of the enclosing loop, and not by
    [key]: a wrapper has no [encode], and a sentence-transformers model
    cannot take a list as keyword arguments. *)
Definition model_output (self : MultiModalEmbedder) (data_type : string)
    (entry : string * Inputs) : result (string * Tensor scalar) :=
  let '(key, inputs) := entry in
  match dict_get key (models self) with
  | None => Raise (ModelingError (no_model_message self key))
  | Some model =>
      match dict_get data_type (feature_extractors self) with
      | None =>
          match model, inputs with
          | SentenceTransformer encode, RawData data_list =>
              output ← encode data_list; mret (key, output)
          | SentenceTransformer _, Features _ => Raise TypeError
          | LanguageModel _ _, _ => Raise AttributeError
          end
      | Some _ =>
          match model, inputs with
          | LanguageModel lm _, Features features =>
              output ← (forward lm features).2; mret (key, output)
          | LanguageModel _ _, RawData _ => Raise TypeError
          | SentenceTransformer _, _ => Raise TypeError
          end
      end
  end.

(** The state of the loop over [data_by_type]: [features_by_type] and the
    local variable [embeddings], unbound until first assigned. *)
Definition BatchState : Type := list (string * Inputs) * option (Tensor scalar).

(** The body of the loop over [data_by_type].  The outputs of all the
    content types seen so far are computed again on every pass, since the
    model calls sit inside the loop. *)
Definition embed_type_step (self : MultiModalEmbedder) (st : BatchState)
    (item : string * list Payload) : result BatchState :=
  let '(features_by_type, _) := st in
  let '(data_type, data_list) := item in
  features ← features_of self data_type data_list;
  let features_by_type := features_by_type ++ [(data_type, features)] in
  outputs_by_type ← map_result (model_output self data_type) features_by_type;
  let embedding_sizes := map (fun kv => t_dim kv.2) outputs_by_type in
  if negb (forallb (fun embedding_size =>
                      bool_decide (Some embedding_size = head embedding_sizes))
                   embedding_sizes)
  then Raise (ModelingError (embedding_size_message outputs_by_type))
  else
    outputs ← torch_stack (outputs_by_type.*2);
    embeddings ← view_rows outputs (default 0%nat (head embedding_sizes));
    mret (features_by_type, Some embeddings).

(** The body of the loop over the batches: [embeddings] survives from one
    batch to the next, [features_by_type] starts empty. *)
Definition embed_batch (self : MultiModalEmbedder)
    (embeddings : option (Tensor scalar)) (docs_batch : list Document)
  : result (option (Tensor scalar)) :=
  data_by_type ← _docs_to_data self docs_batch;
  st ← for_each (embed_type_step self) data_by_type ([], embeddings);
  mret st.2.

Definition embed_batch_step (self : MultiModalEmbedder)
    (st : list (Tensor scalar) * option (Tensor scalar))
    (docs_batch : list Document)
  : result (list (Tensor scalar) * option (Tensor scalar)) :=
  let '(all_embeddings, embeddings) := st in
  embeddings ← embed_batch self embeddings docs_batch;
  match embeddings with
  | None => Raise UnboundLocalError
  | Some block => Ok (all_embeddings ++ [block], embeddings)
  end.

(** The batches of [embed], in processing order. *)
Definition batches (documents : list Document) (batch_size : Z)
  : result (list (list Document)) :=
  indices ← py_range (length documents) batch_size;
  mret (map (fun batch_index => slice documents batch_index batch_size) indices).

(** [embed] *)
Definition embed (self : MultiModalEmbedder) (documents : list Document)
    (batch_size : option Z) : result (Tensor scalar) :=
  let batch_size := default (self_batch_size self) batch_size in
  docs_batches ← batches documents batch_size;
  st ← for_each (embed_batch_step self) docs_batches ([], None);
  np_concatenate st.1.

(** ** The retriever *)

Inductive FilterValue : Type :=
| FilterStr (s : string)
| FilterInt (n : Z)
| FilterBool (b : bool)
| FilterList (values : list string).

(** A filter is a dict; iterating it yields its keys in insertion order. *)
Definition FilterType : Type := list (string * FilterValue).

(** The [filters] argument of [retrieve_batch]: absent, one filter, or a
    list of (possibly absent) filters. *)
Inductive FiltersArg : Type :=
| NoFilters
| OneFilter (f : FilterType)
| ListOfFilters (l : list (option FilterType)).

(** What reaches the document store as [filters]: an element of
    [filters_list].  Iterating a dict in [zip] yields its keys. *)
Inductive QueryFilter : Type :=
| QueryFilterNone
| QueryFilterDict (f : FilterType)
| QueryFilterKey (key : string).

(** The arguments of one call of [query_by_embedding]. *)
Record QueryCall : Type := {
  call_query_emb : list scalar;
  call_top_k : Z;
  call_filters : QueryFilter;
  call_index : option string;
  call_headers : option (list (string * string));
  call_scale_score : bool
}.

Record DocumentStore : Type := {
  store_index : option string;
  query_by_embedding : QueryCall -> result (list Document)
}.

Record MultiModalRetriever : Type := {
  document_store : DocumentStore;
  top_k : Z;
  scale_score : bool;
  passage_embedder : MultiModalEmbedder;
  query_embedder : MultiModalEmbedder
}.

(** [self.top_k] and [self.scale_score], where arguments bear these names. *)
Definition self_top_k (self : MultiModalRetriever) : Z := top_k self.
Definition self_scale_score (self : MultiModalRetriever) : bool := scale_score self.

Definition filter_count_message : string :=
  "Number of filters does not match number of queries. Please provide as many filters "
  +:+ "as queries, or a single filter that will be applied to all queries.".

(** The first statement of [retrieve_batch].  [None] is the only filter
    argument that is not an [Iterable]: a dict is one, as a list is. *)
Definition filters_list_of (filters : FiltersArg) (queries : list string)
  : result (list QueryFilter) :=
  match filters with
  | NoFilters => Ok (replicate (length queries) (QueryFilterDict []))
  | OneFilter f =>
      if bool_decide (length f ≠ length queries)
      then Raise (MultiModalRetrieverError filter_count_message)
      else Ok (map QueryFilterKey (f.*1))
  | ListOfFilters l =>
      if bool_decide (length l ≠ length queries)
      then Raise (MultiModalRetrieverError filter_count_message)
      else Ok (map (fun o => match o with
                             | None => QueryFilterNone
                             | Some f => QueryFilterDict f
                             end) l)
  end.

(** [top_k or self.top_k] *)
Definition top_k_or (top_k : option Z) (self_top_k : Z) : Z :=
  match top_k with
  | Some k => if bool_decide (k = 0%Z) then self_top_k else k
  | None => self_top_k
  end.

(** [index or self.document_store.index] *)
Definition index_or (index : option string) (store_index : option string)
  : option string :=
  match index with
  | Some i => if bool_decide (i = "") then store_index else Some i
  | None => store_index
  end.

(** [scale_score or self.scale_score] *)
Definition scale_score_or (scale_score : option bool) (self_scale_score : bool)
  : bool :=
  match scale_score with
  | Some true => true
  | Some false | None => self_scale_score
  end.

(** The calls [retrieve_batch] makes on the document store, in order. *)
Definition query_calls (self : MultiModalRetriever) (queries : list string)
    (content_type : string) (filters : FiltersArg) (top_k : option Z)
    (index : option string) (headers : option (list (string * string)))
    (batch_size : option Z) (scale_score : option bool)
  : result (list QueryCall) :=
  filters_list ← filters_list_of filters queries;
  let top_k := top_k_or top_k (self_top_k self) in
  let index := index_or index (store_index (document_store self)) in
  let scale_score := scale_score_or scale_score (self_scale_score self) in
  let query_docs := map (fun query => new_document query content_type) queries in
  query_embeddings ← embed (query_embedder self) query_docs batch_size;
  mret (map (fun pair =>
               {| call_query_emb := pair.1; call_top_k := top_k;
                  call_filters := pair.2; call_index := index;
                  call_headers := headers; call_scale_score := scale_score |})
            (zip (t_rows query_embeddings) filters_list)).

(** [retrieve_batch] *)
Definition retrieve_batch (self : MultiModalRetriever) (queries : list string)
    (content_type : string) (filters : FiltersArg) (top_k : option Z)
    (index : option string) (headers : option (list (string * string)))
    (batch_size : option Z) (scale_score : option bool)
  : result (list (list Document)) :=
  calls ← query_calls self queries content_type filters top_k index headers
            batch_size scale_score;
  map_result (query_by_embedding (document_store self)) calls.

(** [results[0]] *)
Definition first_item {A} (results : list A) : result A :=
  match results with
  | [] => Raise IndexError
  | r :: _ => Ok r
  end.

(** [retrieve] *)
Definition retrieve (self : MultiModalRetriever) (query : string)
    (content_type : string) (filters : option FilterType) (top_k : option Z)
    (index : option string) (headers : option (list (string * string)))
    (scale_score : option bool) : result (list Document) :=
  results ← retrieve_batch self [query] content_type (ListOfFilters [filters])
              top_k index headers (Some 1%Z) scale_score;
  first_item results.

(** [embed_documents] *)
Definition embed_documents (self : MultiModalRetriever) (docs : list Document)
  : result (Tensor scalar) :=
  embed (passage_embedder self) docs None.

End WithTypes.
Arguments Document scalar : clear implicits.
Arguments Payload pil_image : clear implicits.
Arguments FeatureExtractor feature pil_image : clear implicits.
Arguments Encoder scalar feature pil_image : clear implicits.
Arguments MultiModalEmbedder scalar feature pil_image : clear implicits.
Arguments Inputs feature pil_image : clear implicits.
Arguments QueryCall scalar : clear implicits.
Arguments DocumentStore scalar : clear implicits.
Arguments MultiModalRetriever scalar feature pil_image : clear implicits.

(** ** Helpers of the module *)

(** A Python value that is a list, of values that may be lists again, or
    anything else. *)
#[local] Unset Elimination Schemes.
Inductive Nested (A : Type) : Type :=
| Item (a : A)
| NestedList (items : list (Nested A)).
#[local] Set Elimination Schemes.
Arguments Item {A} a.
Arguments NestedList {A} items.

(** [list(flatten(iterable))] *)
Fixpoint flatten {A} (iterable : Nested A) : list A :=
  match iterable with
  | NestedList items => concat (map flatten items)
  | Item a => [a]
  end.

(** A torch device, as [torch.device] builds it from a name or from the
    index of an accelerator. *)
Inductive Device : Type :=
| DeviceNamed (name : string)
| DeviceIndex (index : nat).

(** [torch.device(name)]: the device of that name; a text that is not a
    device string is refused with an exception.  Which names are devices
    is decided by torch. *)
Definition TorchDevice : Type := string -> result Device.

(** What [torch.cuda] reports. *)
Record Cuda : Type := {
  is_available : bool;
  device_count : nat
}.

(** [get_devices]: [torch.device] is called on every name of the list,
    on the indices of the accelerators, which it always accepts, or on
    ["cpu"]. *)
Definition get_devices (torch_device : TorchDevice) (cuda : Cuda)
    (devices : option (list string)) : result (list Device) :=
  match devices with
  | Some devices => map_result torch_device devices
  | None =>
      if is_available cuda then Ok (map DeviceIndex (seq 0 (device_count cuda)))
      else device ← torch_device "cpu"; mret [device]
  end.

End Retriever.

Import Retriever.

(** * Concrete instances

    Small models, extractors and stores on which the definitions above are
    evaluated: scalars are integers, features are integers, and a decoded
    image is represented by the reference it was opened from. *)

Module Examples.

Definition Image_open (path : string) : result string := Ok path.

(** An encoder that embeds every payload on its own: a row of width two
    holding the length of the payload and its kind. *)
Definition row_of (p : Payload string) : list Z :=
  match p with
  | PStr s => [Z.of_nat (String.length s); 0%Z]
  | PImage img => [Z.of_nat (String.length img); 1%Z]
  end.

Definition encode_rows (data : list (Payload string)) : result (Tensor Z) :=
  Ok (mkTensor (map row_of data) 2).

(** An encoder of a given width whose rows are all zero. *)
Definition encode_zeros (d : nat) (data : list (Payload string)) : result (Tensor Z) :=
  Ok (mkTensor (map (fun _ => replicate d 0%Z) data) d).

(** An embedder with sentence-transformers models for texts and images. *)
Definition embedder : MultiModalEmbedder Z Z string :=
  {| batch_size := 16; embed_meta_fields := ["name"];
     models := [ ("text", SentenceTransformer encode_rows);
                 ("image", SentenceTransformer encode_rows) ] |}.

(** An embedder that has an image model only. *)
Definition image_embedder : MultiModalEmbedder Z Z string :=
  {| batch_size := 16; embed_meta_fields := ["name"];
     models := [ ("image", SentenceTransformer encode_rows) ] |}.

(** The mis-paired embedder of the spec: a text model of width 768 next
    to an image model of width 512. *)
Definition mispaired_embedder : MultiModalEmbedder Z Z string :=
  {| batch_size := 16; embed_meta_fields := ["name"];
     models := [ ("text", SentenceTransformer (encode_zeros 768));
                 ("image", SentenceTransformer (encode_zeros 512)) ] |}.

Definition doc (content_type text : string) : Document Z :=
  {| content := StrContent text; content_type := content_type;
     meta := Some []; embedding := None; score := None |}.

(** A store that answers every query with no document. *)
Definition empty_store : DocumentStore Z :=
  {| store_index := Some "document"; query_by_embedding := fun _ => Ok [] |}.

Definition retriever : MultiModalRetriever Z Z string :=
  {| document_store := empty_store; top_k := 10; scale_score := true;
     passage_embedder := embedder; query_embedder := embedder |}.

(** A text wrapper around a model that returns one fixed row. *)
Definition text_model : MultiModalLanguageModel Z Z :=
  {| lm_class := TextLanguageModel;
     lm_model_type := "Data2VecTextForQuestionAnswering";
     lm_model := fun _ =>
       Ok {| pooler_output := mkTensor [[1%Z; 2%Z]] 2;
             last_hidden_state := mkTensor [[0%Z; 0%Z]] 2 |};
     lm_pooler := fun output => Ok (last_hidden_state output) |}.

(** A configuration service that detects the same family for every
    identifier, and a loader that always succeeds. *)
Definition hub (detected : string) : Transformers Z Z :=
  {| AutoConfig_from_pretrained := fun _ => Ok {| model_type := Some detected |};
     from_pretrained := fun _ _ _ =>
       Ok (lm_model text_model, lm_pooler text_model) |}.

(** An embedder that embeds no metadata field, and one that was asked for
    other fields than [embedder]; neither has a model. *)
Definition plain_embedder : MultiModalEmbedder Z Z string :=
  {| batch_size := 4; embed_meta_fields := []; models := [] |}.

Definition titled_embedder : MultiModalEmbedder Z Z string :=
  {| batch_size := 4; embed_meta_fields := ["title"; "author"]; models := [] |}.

(** An image wrapper with its feature extractor, and an embedder that
    pairs it with a sentence-transformers model for texts. *)
Definition image_model : MultiModalLanguageModel Z Z :=
  {| lm_class := ImageLanguageModel;
     lm_model_type := "Data2VecVisionForImageClassification";
     lm_model := fun _ =>
       Ok {| pooler_output := mkTensor [[7%Z; 7%Z]] 2;
             last_hidden_state := mkTensor [[0%Z; 0%Z]] 2 |};
     lm_pooler := fun output => Ok (last_hidden_state output) |}.

Definition pixel_extractor : FeatureExtractor Z string :=
  {| sample_features := fun _ _ => Ok {[ "pixel_values" := 0%Z ]};
     extractor_repr := "<FeatureExtractor object at 0x7f01>" |}.

Definition hybrid_embedder : MultiModalEmbedder Z Z string :=
  {| batch_size := 16; embed_meta_fields := ["name"];
     models := [ ("text", SentenceTransformer encode_rows);
                 ("image", LanguageModel image_model pixel_extractor) ] |}.

(** Two embedders whose text wrapper is badly served: by an extractor
    that yields [input_ids] alone, and by one that yields nothing. *)
Definition token_extractor : FeatureExtractor Z string :=
  {| sample_features := fun _ _ => Ok {[ "input_ids" := 0%Z ]};
     extractor_repr := "<FeatureExtractor object at 0x7f02>" |}.

Definition empty_extractor : FeatureExtractor Z string :=
  {| sample_features := fun _ _ => Ok ∅;
     extractor_repr := "<FeatureExtractor object at 0x7f03>" |}.

Definition token_embedder : MultiModalEmbedder Z Z string :=
  {| batch_size := 16; embed_meta_fields := ["name"];
     models := [ ("text", LanguageModel text_model token_extractor) ] |}.

Definition silent_embedder : MultiModalEmbedder Z Z string :=
  {| batch_size := 16; embed_meta_fields := ["name"];
     models := [ ("text", LanguageModel text_model empty_extractor) ] |}.

(** A [torch.device] that knows the CPU and the first accelerator. *)
Definition torch_device : TorchDevice := fun name =>
  if bool_decide (name = "cpu") || bool_decide (name = "cuda:0")
  then Ok (DeviceNamed name)
  else Raise RuntimeError.

(** A table with one column and one row. *)
Definition table_doc : Document Z :=
  {| content := TableContent ["city"] [["Paris"]]; content_type := "table";
     meta := Some []; embedding := None; score := None |}.

(** A store that tells the absent filter from the empty one: it has a
    document for the queries that come with a filter dict and none for
    those that come without filter. *)
Definition filter_store : DocumentStore Z :=
  {| store_index := Some "document";
     query_by_embedding := fun call =>
       match call_filters call with
       | QueryFilterNone => Ok []
       | QueryFilterDict _ | QueryFilterKey _ =>
           Ok [ {| content := StrContent "hit"; content_type := "text";
                   meta := Some []; embedding := None; score := None |} ]
       end |}.

Definition filter_retriever : MultiModalRetriever Z Z string :=
  {| document_store := filter_store; top_k := 10; scale_score := true;
     passage_embedder := embedder; query_embedder := embedder |}.

(** A retriever whose query model returns a matrix without rows. *)
Definition rowless_embedder : MultiModalEmbedder Z Z string :=
  {| batch_size := 16; embed_meta_fields := ["name"];
     models := [ ("text", SentenceTransformer (fun _ => Ok (mkTensor [] 2))) ] |}.

Definition rowless_retriever : MultiModalRetriever Z Z string :=
  {| document_store := filter_store; top_k := 10; scale_score := true;
     passage_embedder := embedder; query_embedder := rowless_embedder |}.

(** A document with metadata, and possibly an embedding and a score. *)
Definition doc_with (content_type text : string) (meta : list (string * string))
    (embedding : option (list Z)) (score : option Z) : Document Z :=
  {| content := StrContent text; content_type := content_type;
     meta := Some meta; embedding := embedding; score := score |}.

End Examples.

(** * Properties *)

(** ** The text converter *)

Lemma last_snoc (s : string) (c : ascii) :
  PyStr.last (s +:+ String c "") = Ok c.
Proof.
  induction s as [|a s IH]; simpl; [reflexivity|].
  rewrite IH. destruct s; reflexivity.
Qed.

Lemma but_last_snoc (s : string) (c : ascii) :
  PyStr.but_last (s +:+ String c "") = s.
Proof.
  induction s as [|a s IH]; simpl; [reflexivity|].
  rewrite IH. destruct s; reflexivity.
Qed.

Lemma string_snoc_cases (s : string) :
  s = "" ∨ ∃ init c, s = init +:+ String c "".
Proof.
  induction s as [|a s IH]; [left; reflexivity|right].
  destruct IH as [->|(init & c & ->)].
  - exists "", a. reflexivity.
  - exists (String a init), c. reflexivity.
Qed.

Lemma append_snoc_assoc (s : string) (c d : ascii) :
  s +:+ String c (String d "") = (s +:+ String c "") +:+ String d "".
Proof.
  induction s as [|a s IH]; [reflexivity|].
  change (String a (s +:+ String c (String d ""))
          = String a ((s +:+ String c "") +:+ String d "")).
  now rewrite IH.
Qed.

(** C9. On a document whose content is a non-empty string, the converter
    registered for texts returns the string without its last character when
    that character is a question mark, and the string itself otherwise; of
    two trailing question marks only one is removed. *)
Theorem text_converter_strips_one_question_mark
    {scalar pil_image : Type} (Image_open : string -> result pil_image)
    (doc : Document scalar) (s : string) :
  content doc = StrContent s ->
  s ≠ "" ->
  ∃ converter init c,
    dict_get "text" (DOCUMENT_CONVERTERS Image_open) = Some converter
    ∧ s = init +:+ String c ""
    ∧ converter doc = Ok (PStr (if Ascii.eqb c "?" then init else s))
    ∧ (∀ init', s = init' +:+ "??" -> converter doc = Ok (PStr (init' +:+ "?"))).
Proof.
  intros Hcontent Hne.
  destruct (string_snoc_cases s) as [->|(init & c & ->)]; [congruence|].
  exists convert_text, init, c. split; [reflexivity|]. split; [reflexivity|].
  unfold convert_text. rewrite Hcontent, last_snoc, but_last_snoc.
  split; [reflexivity|].
  intros init' Heq. cbn.
  change "??" with (String "?" (String "?" "")) in Heq.
  rewrite append_snoc_assoc in Heq.
  assert (Hc : c = "?"%char).
  { apply (f_equal PyStr.last) in Heq. rewrite !last_snoc in Heq. congruence. }
  assert (Hi : init = init' +:+ "?").
  { apply (f_equal PyStr.but_last) in Heq. now rewrite !but_last_snoc in Heq. }
  subst. reflexivity.
Qed.

Lemma text_converter_strips_one_question_mark_witness :
  ∃ converter init c,
    dict_get "text" (DOCUMENT_CONVERTERS Examples.Image_open) = Some converter
    ∧ "why??" = init +:+ String c ""
    ∧ converter (Examples.doc "text" "why??")
      = Ok (PStr (if Ascii.eqb c "?" then init else "why??"))
    ∧ (∀ init', "why??" = init' +:+ "??" ->
         converter (Examples.doc "text" "why??") = Ok (PStr (init' +:+ "?"))).
Proof.
  apply (text_converter_strips_one_question_mark Examples.Image_open
           (Examples.doc "text" "why??") "why??"); [reflexivity | discriminate].
Defined.

(** ** Validation of the inputs of [forward] *)

Lemma string_append_assoc (a b c : string) :
  (a +:+ b) +:+ c = a +:+ (b +:+ c).
Proof.
  induction a as [|x a IH]; [reflexivity|].
  change (String x ((a +:+ b) +:+ c) = String x (a +:+ (b +:+ c))).
  now rewrite IH.
Qed.

Lemma string_append_nil_r (a : string) : a +:+ "" = a.
Proof.
  induction a as [|x a IH]; [reflexivity|].
  change (String x (a +:+ "") = String x a). now rewrite IH.
Qed.

Lemma occurs_in_here (part after : string) : PyStr.occurs_in part (part +:+ after).
Proof. exists "", after. reflexivity. Qed.

Lemma occurs_in_app_l (part a b : string) :
  PyStr.occurs_in part b -> PyStr.occurs_in part (a +:+ b).
Proof.
  intros (before & after & ->). exists (a +:+ before), after.
  now rewrite string_append_assoc.
Qed.

Lemma occurs_in_app_r (part a b : string) :
  PyStr.occurs_in part a -> PyStr.occurs_in part (a +:+ b).
Proof.
  intros (before & after & ->). exists before, (after +:+ b).
  now rewrite !string_append_assoc.
Qed.

Lemma occurs_in_join (sep : string) (parts : list string) (part : string) :
  part ∈ parts -> PyStr.occurs_in part (PyStr.join sep parts).
Proof.
  unfold PyStr.join.
  induction parts as [|x parts IH]; intros Hin; [inversion Hin|].
  apply elem_of_cons in Hin as [->|Hin].
  - destruct parts as [|y parts]; cbn [concat].
    + rewrite <- (string_append_nil_r x) at 2. apply occurs_in_here.
    + apply occurs_in_here.
  - destruct parts as [|y parts]; [inversion Hin|].
    change (PyStr.occurs_in part
              (x +:+ sep +:+ String.concat sep (y :: parts))).
    now apply occurs_in_app_l, occurs_in_app_l, IH.
Qed.

Lemma insert_sorted_elem (x y : string) (l : list string) :
  y ∈ PyStr.insert_sorted x l ↔ y = x ∨ y ∈ l.
Proof.
  induction l as [|z l IH]; cbn.
  - rewrite list_elem_of_singleton. set_solver.
  - destruct (String.leb x z).
    + rewrite elem_of_cons. tauto.
    + rewrite !elem_of_cons, IH. tauto.
Qed.

Lemma sorted_elem (y : string) (l : list string) : y ∈ PyStr.sorted l ↔ y ∈ l.
Proof.
  unfold PyStr.sorted. induction l as [|x l IH]; cbn; [tauto|].
  rewrite insert_sorted_elem, IH, elem_of_cons. tauto.
Qed.

Lemma occurs_in_sorted_names (names : gset string) (name : string) :
  name ∈ names ->
  PyStr.occurs_in name (PyStr.join ", " (PyStr.sorted (elements names))).
Proof.
  intros Hin. apply occurs_in_join, sorted_elem, elem_of_elements, Hin.
Qed.

(** C5. [forward] stops with the [ModelingError] whose message lists the
    supplied names, the expected names and the mandatory ones, each list
    sorted and separated by commas, without any call of the wrapped model,
    exactly when the supplied names do not include the mandatory ones or
    are not all among the mandatory and optional ones; every supplied name
    and every expected name occurs in that message.  Otherwise [forward]
    is the inference hook [_forward], which calls the wrapped model
    once. *)
Theorem forward_validates_argument_names
    {scalar feature : Type} (lm : MultiModalLanguageModel scalar feature)
    (kwargs : gmap string feature) :
  let mandatory_args := (expected_inputs (lm_class lm)).1 in
  let all_args := mandatory_args ∪ (expected_inputs (lm_class lm)).2 in
  let accepted := mandatory_args ⊆ dom kwargs ∧ dom kwargs ⊆ all_args in
  let message :=
    "The input parameters do not match the model's expectations."
    +:+ PyStr.newline
    +:+ "Input names: " +:+ PyStr.join ", " (PyStr.sorted (elements (dom kwargs)))
    +:+ PyStr.newline
    +:+ "Expected: " +:+ PyStr.join ", " (PyStr.sorted (elements all_args))
    +:+ " (where " +:+ PyStr.join ", " (PyStr.sorted (elements mandatory_args))
    +:+ " are mandatory)" in
  (¬ accepted ↔ forward lm kwargs = ([], Raise (ModelingError message)))
  ∧ (accepted ↔ forward lm kwargs = _forward lm kwargs)
  ∧ (_forward lm kwargs).1 = [kwargs]
  ∧ (∀ name, name ∈ dom kwargs ∨ name ∈ all_args -> PyStr.occurs_in name message).
Proof.
  intros mandatory_args all_args accepted message.
  assert (Hfwd : forward lm kwargs
                 = if negb (bool_decide (mandatory_args ⊆ dom kwargs)
                            && bool_decide (dom kwargs ⊆ all_args))
                   then ([], Raise (ModelingError message))
                   else _forward lm kwargs).
  { unfold forward, message, mandatory_args, all_args.
    destruct (expected_inputs (lm_class lm)); reflexivity. }
  assert (Hlog : (_forward lm kwargs).1 = [kwargs]) by reflexivity.
  assert (Hnames : ∀ name, name ∈ dom kwargs ∨ name ∈ all_args ->
                     PyStr.occurs_in name message).
  { intros name [Hin|Hin]; unfold message.
    - do 3 apply occurs_in_app_l. apply occurs_in_app_r.
      now apply occurs_in_sorted_names.
    - do 6 apply occurs_in_app_l. apply occurs_in_app_r.
      now apply occurs_in_sorted_names. }
  rewrite Hfwd. unfold accepted.
  destruct (decide (mandatory_args ⊆ dom kwargs)) as [H1|H1];
    destruct (decide (dom kwargs ⊆ all_args)) as [H2|H2];
    rewrite ?(bool_decide_eq_true_2 _ H1), ?(bool_decide_eq_false_2 _ H1),
            ?(bool_decide_eq_true_2 _ H2), ?(bool_decide_eq_false_2 _ H2);
    cbn [negb andb];
    (split; [|split; [|split; [exact Hlog|exact Hnames]]]);
    split; try tauto; try reflexivity;
    intros Heq; exfalso;
    first [ rewrite Heq in Hlog; discriminate Hlog
          | rewrite <- Heq in Hlog; discriminate Hlog ].
Qed.

Lemma forward_validates_argument_names_witness :
  forward Examples.text_model {[ "input_ids" := 1%Z ]}
  = ([], Raise (ModelingError
                  ("The input parameters do not match the model's expectations."
                   +:+ PyStr.newline +:+ "Input names: input_ids" +:+ PyStr.newline
                   +:+ "Expected: attention_mask, input_ids, token_type_ids "
                   +:+ "(where attention_mask, input_ids, token_type_ids are mandatory)")))
  ∧ forward Examples.text_model
      {[ "input_ids" := 1%Z; "token_type_ids" := 0%Z; "attention_mask" := 1%Z ]}
    = _forward Examples.text_model
        {[ "input_ids" := 1%Z; "token_type_ids" := 0%Z; "attention_mask" := 1%Z ]}
  ∧ PyStr.occurs_in "input_ids"
      ("The input parameters do not match the model's expectations."
       +:+ PyStr.newline +:+ "Input names: input_ids" +:+ PyStr.newline
       +:+ "Expected: attention_mask, input_ids, token_type_ids "
       +:+ "(where attention_mask, input_ids, token_type_ids are mandatory)").
Proof.
  pose proof (forward_validates_argument_names Examples.text_model
                {[ "input_ids" := 1%Z ]}) as (Hreject & _ & _ & Hnames).
  pose proof (forward_validates_argument_names Examples.text_model
                {[ "input_ids" := 1%Z; "token_type_ids" := 0%Z;
                   "attention_mask" := 1%Z ]}) as (_ & Haccept & _ & _).
  split; [|split].
  - etransitivity; [apply Hreject|vm_compute; reflexivity].
    cbn. rewrite dom_singleton_L. set_solver.
  - apply Haccept. cbn. rewrite !dom_insert_L, dom_singleton_L. set_solver.
  - specialize (Hnames "input_ids").
    assert (Hmsg : ∀ m m', m = m' -> PyStr.occurs_in "input_ids" m ->
                     PyStr.occurs_in "input_ids" m') by (intros ? ? ->; tauto).
    eapply Hmsg; [|apply Hnames; left; rewrite dom_singleton_L; set_solver].
    vm_compute. reflexivity.
Defined.

(** ** Resolution of the wrapper class *)

(** C8. For the detected family [data2vec-text] the alias table yields a
    key that starts with a space; the registry has no such key, and
    [get_mm_language_model] raises the unsupported-model error.  The family
    [data2vec-vision] resolves to the image wrapper. *)
Theorem get_mm_language_model_rejects_data2vec_text :
  HUGGINGFACE_CAPITALIZE !! "data2vec-text" = Some " Data2VecTextForQuestionAnswering"
  ∧ get_mm_language_model (Examples.hub "data2vec-text")
      "facebook/data2vec-text-base" None
    = Raise (ValueError (unsupported_model_message "facebook/data2vec-text-base"
                           " Data2VecTextForQuestionAnswering"))
  ∧ lm_class <$> get_mm_language_model (Examples.hub "data2vec-vision")
                   "facebook/data2vec-vision-base" None
    = Ok ImageLanguageModel.
Proof. vm_compute. repeat split; reflexivity. Qed.

(** ** Filters, fallbacks and the single-query entry point *)

Lemma map_result_length {A B} (f : A -> result B) (items : list A) (out : list B) :
  map_result f items = Ok out -> length out = length items.
Proof.
  revert out. induction items as [|x items IH]; intros out; cbn.
  - intros [= <-]. reflexivity.
  - destruct (f x) as [y|e]; cbn; [|discriminate].
    destruct (map_result f items) as [ys|e]; cbn; [|discriminate].
    intros [= <-]. cbn. f_equal. now apply IH.
Qed.

Lemma map_result_raises {A B} (f : A -> result B) (items : list A) x e0 :
  x ∈ items -> f x = Raise e0 -> ∃ e, map_result f items = Raise e.
Proof.
  intros Hin Hx. induction items as [|y items IH]; [inversion Hin|].
  cbn. apply elem_of_cons in Hin as [<-|Hin].
  - rewrite Hx. cbn. eauto.
  - destruct (f y) as [b|e]; cbn; [|eauto].
    destruct (IH Hin) as [e ->]. cbn. eauto.
Qed.

Section RetrieverFacts.
Context {scalar feature pil_image : Type}.
Variable Image_open : string -> result pil_image.
Variable self : MultiModalRetriever scalar feature pil_image.

(** A list of filters whose length is not the number of queries is
    rejected before anything is embedded. *)
Lemma retrieve_batch_filter_count_mismatch
    queries content_type (l : list (option FilterType))
    top_k index headers batch_size scale_score :
  length l ≠ length queries ->
  retrieve_batch Image_open self queries content_type (ListOfFilters l)
    top_k index headers batch_size scale_score
  = Raise (MultiModalRetrieverError filter_count_message).
Proof.
  intros Hlen. unfold retrieve_batch, query_calls. cbn.
  now rewrite (bool_decide_eq_true_2 _ Hlen).
Qed.

(** With as many filters as queries, the i-th call on the store carries
    the i-th embedding and the i-th filter; with no filter at all, every
    call carries the empty filter. *)
Lemma query_calls_filters
    queries content_type filters top_k index headers batch_size scale_score
    calls :
  query_calls Image_open self queries content_type filters
    top_k index headers batch_size scale_score = Ok calls ->
  ∃ filters_list,
    filters_list_of filters queries = Ok filters_list
    ∧ length filters_list = length queries
    ∧ ∀ i call, calls !! i = Some call ->
        filters_list !! i = Some (call_filters call).
Proof.
  unfold query_calls.
  destruct (filters_list_of filters queries) as [fl|e] eqn:Hfl; cbn; [|discriminate].
  destruct (embed _ _ _ _) as [emb|e]; cbn; [|discriminate].
  intros [= <-]. exists fl. split; [reflexivity|]. split.
  - destruct filters as [|f|l]; cbn in Hfl.
    + injection Hfl as <-. now rewrite length_replicate.
    + case_bool_decide as Hlen; [discriminate|]. injection Hfl as <-.
      rewrite length_map, length_fmap.
      destruct (decide (length f = length queries)); [done|contradiction].
    + case_bool_decide as Hlen; [discriminate|]. injection Hfl as <-.
      rewrite length_map.
      destruct (decide (length l = length queries)); [done|contradiction].
  - intros i call Hcall.
    rewrite list_lookup_fmap in Hcall.
    destruct (zip (t_rows emb) fl !! i) as [[row f]|] eqn:Hzip; [|discriminate].
    injection Hcall as <-. cbn.
    apply lookup_zip_Some in Hzip. tauto.
Qed.

End RetrieverFacts.

(** C3. A single filter given to [retrieve_batch] is a dict, and a dict is
    an [Iterable]: it is not broadcast.  For two queries and the filter
    [{"x": 1}] the call stops with the count-mismatch error; for one query
    the store is asked with the key ["x"] instead of the filter. *)
Theorem retrieve_batch_single_filter_not_broadcast :
  retrieve_batch Examples.Image_open Examples.retriever ["a"; "b"] "text"
    (OneFilter [("x", FilterInt 1)]) None None None None None
  = Raise (MultiModalRetrieverError filter_count_message)
  ∧ map call_filters
      <$> query_calls Examples.Image_open Examples.retriever ["a"] "text"
            (OneFilter [("x", FilterInt 1)]) None None None None None
    = Ok [QueryFilterKey "x"].
Proof. vm_compute. split; reflexivity. Qed.

(** C10. Every call that [retrieve_batch] makes on the document store
    carries the construction-time [scale_score] unless the argument of the
    call is [True], hence [True] whenever the retriever was built with
    [True]; it carries the construction-time [top_k] when the argument is
    absent or zero.  The calls are handed to the store as they are. *)
Theorem retrieve_batch_falls_back_on_falsy_arguments
    {scalar feature pil_image : Type} (Image_open : string -> result pil_image)
    (self : MultiModalRetriever scalar feature pil_image)
    queries content_type filters top_k index headers batch_size scale_score
    calls call :
  query_calls Image_open self queries content_type filters
    top_k index headers batch_size scale_score = Ok calls ->
  call ∈ calls ->
  (scale_score ≠ Some true -> call_scale_score call = Retriever.scale_score self)
  ∧ (Retriever.scale_score self = true -> call_scale_score call = true)
  ∧ (top_k = None ∨ top_k = Some 0%Z -> call_top_k call = Retriever.top_k self)
  ∧ retrieve_batch Image_open self queries content_type filters
      top_k index headers batch_size scale_score
    = map_result (query_by_embedding (document_store self)) calls.
Proof.
  intros Hcalls Hin.
  assert (Hbatch : retrieve_batch Image_open self queries content_type filters
                     top_k index headers batch_size scale_score
                   = map_result (query_by_embedding (document_store self)) calls).
  { unfold retrieve_batch. now rewrite Hcalls. }
  unfold query_calls in Hcalls.
  destruct (filters_list_of filters queries) as [fl|e]; cbn in Hcalls; [|discriminate].
  destruct (embed _ _ _ _) as [emb|e]; cbn in Hcalls; [|discriminate].
  injection Hcalls as <-.
  apply list_elem_of_fmap in Hin as (pair & -> & _). cbn.
  unfold self_scale_score, self_top_k.
  repeat split; try exact Hbatch.
  - destruct scale_score as [[]|]; cbn; congruence.
  - intros ->. destruct scale_score as [[]|]; reflexivity.
  - intros [->| ->]; reflexivity.
Qed.

Lemma retrieve_batch_falls_back_on_falsy_arguments_witness :
  let call := {| call_query_emb := [1%Z; 0%Z]; call_top_k := 10;
                 call_filters := QueryFilterDict []; call_index := Some "document";
                 call_headers := None; call_scale_score := true |} in
  (Some false ≠ Some true -> call_scale_score call = true)
  ∧ (true = true -> call_scale_score call = true)
  ∧ (Some 0%Z = None ∨ Some 0%Z = Some 0%Z -> call_top_k call = 10%Z)
  ∧ retrieve_batch Examples.Image_open Examples.retriever ["a"] "text" NoFilters
      (Some 0%Z) None None None (Some false)
    = map_result (query_by_embedding Examples.empty_store) [call].
Proof.
  intros call.
  apply (retrieve_batch_falls_back_on_falsy_arguments
           Examples.Image_open Examples.retriever ["a"] "text" NoFilters
           (Some 0%Z) None None None (Some false) [call] call).
  - vm_compute. reflexivity.
  - apply list_elem_of_here.
Defined.

(** C7, as the code has it.  [retrieve] wraps its filter in a one-element
    list and takes the first item of what [retrieve_batch] returns for the
    query as only query, that one-element filter list, batch size one and
    the other arguments unchanged.  It returns a result list exactly when
    that call returns this list as its only result; it raises the error of
    that call when the call fails, and an [IndexError] when the call
    returns no result list at all. *)
Theorem retrieve_is_single_query_batch
    {scalar feature pil_image : Type} (Image_open : string -> result pil_image)
    (self : MultiModalRetriever scalar feature pil_image)
    (query content_type : string) (filters : option FilterType)
    top_k index headers scale_score :
  let batch := retrieve_batch Image_open self [query] content_type
                 (ListOfFilters [filters]) top_k index headers (Some 1%Z)
                 scale_score in
  let single := retrieve Image_open self query content_type filters
                  top_k index headers scale_score in
  (∀ docs, single = Ok docs ↔ batch = Ok [docs])
  ∧ (∀ e, single = Raise e ↔ batch = Raise e ∨ (batch = Ok [] ∧ e = IndexError)).
Proof.
  intros batch single.
  assert (Hsingle : single = results ← batch; first_item results) by reflexivity.
  assert (Hlen : ∀ results, batch = Ok results -> (length results ≤ 1)%nat).
  { intros results. unfold batch, retrieve_batch.
    destruct (query_calls _ _ _ _ _ _ _ _ _ _) as [calls|e] eqn:Hcalls; cbn;
      [|discriminate].
    intros Hres. apply map_result_length in Hres. rewrite Hres.
    destruct (query_calls_filters _ _ _ _ _ _ _ _ _ _ _ Hcalls)
      as (fl & _ & Hfl & Hlook).
    destruct calls as [|c1 [|c2 calls]]; cbn; [lia|lia|exfalso].
    specialize (Hlook 1%nat c2 eq_refl).
    apply lookup_lt_Some in Hlook. cbn in Hfl. lia. }
  rewrite Hsingle. destruct batch as [results|e0]; cbn.
  - specialize (Hlen results eq_refl).
    destruct results as [|r [|r' results]]; cbn in *; [| |lia].
    + split.
      * intros docs. split; discriminate.
      * intros e. split; [intros [= <-]; right; done|].
        intros [|[_ ->]]; [discriminate|reflexivity].
    + split.
      * intros docs. split; congruence.
      * intros e. split; [discriminate|]. intros [|[? _]]; discriminate.
  - split.
    + intros docs. split; discriminate.
    + intros e. split; [intros [= <-]; left; done|].
      intros [[= <-]|[? _]]; [reflexivity|discriminate].
Qed.

Lemma retrieve_is_single_query_batch_witness :
  retrieve Examples.Image_open Examples.filter_retriever "q" "text"
    (Some [("x", FilterInt 1)]) None None None None
  = Ok [ {| content := StrContent "hit"; content_type := "text";
            meta := Some []; embedding := None; score := None |} ]
  ∧ retrieve Examples.Image_open Examples.rowless_retriever "q" "text" None
      None None None None
    = Raise IndexError.
Proof.
  split.
  - apply (proj1 (retrieve_is_single_query_batch Examples.Image_open
                    Examples.filter_retriever "q" "text"
                    (Some [("x", FilterInt 1)]) None None None None)).
    vm_compute. reflexivity.
  - apply (proj2 (retrieve_is_single_query_batch Examples.Image_open
                    Examples.rowless_retriever "q" "text" None
                    None None None None)).
    right. split; [vm_compute; reflexivity|reflexivity].
Defined.

(** C7, as stated, fails.  Without filter, [retrieve] hands the store the
    absent filter, as the only item of its one-element filter list, while
    [retrieve_batch], called with the same absent filter, the query as
    only query and batch size one, hands it the empty filter.  A store
    that tells the two apart answers differently. *)
Lemma retrieve_differs_from_batch_without_filter :
  retrieve Examples.Image_open Examples.filter_retriever "q" "text" None
    None None None None = Ok []
  ∧ retrieve_batch Examples.Image_open Examples.filter_retriever ["q"] "text"
      NoFilters None None None (Some 1%Z) None
    = Ok [[ {| content := StrContent "hit"; content_type := "text";
               meta := Some []; embedding := None; score := None |} ]]
  ∧ map call_filters
      <$> query_calls Examples.Image_open Examples.filter_retriever ["q"] "text"
            (ListOfFilters [None]) None None None (Some 1%Z) None
    = Ok [QueryFilterNone]
  ∧ map call_filters
      <$> query_calls Examples.Image_open Examples.filter_retriever ["q"] "text"
            NoFilters None None None (Some 1%Z) None
    = Ok [QueryFilterDict []].
Proof. vm_compute. repeat split; reflexivity. Qed.

(** ** Loops and batches *)

Lemma for_each_app {A S} (body : S -> A -> result S) (xs ys : list A) (s : S) :
  for_each body (xs ++ ys) s = s' ← for_each body xs s; for_each body ys s'.
Proof.
  revert s. induction xs as [|x xs IH]; intros s; cbn; [reflexivity|].
  destruct (body s x) as [s'|e]; cbn; [apply IH|reflexivity].
Qed.

(** A loop fails when the body fails on one of its items whatever the
    state. *)
Lemma for_each_raises {A S} (body : S -> A -> result S) (items : list A) (s : S) x :
  x ∈ items ->
  (∀ s', ∃ e, body s' x = Raise e) ->
  ∃ e, for_each body items s = Raise e.
Proof.
  intros Hin Hfail. revert s.
  induction items as [|y items IH]; intros s; [inversion Hin|].
  cbn. apply elem_of_cons in Hin as [->|Hin].
  - destruct (Hfail s) as [e ->]. now exists e.
  - destruct (body s y) as [s'|e]; cbn; [now apply IH|now exists e].
Qed.

(** A loop stops with the exception of the first pass that raises. *)
Lemma for_each_stops {A S} (body : S -> A -> result S) xs x ys (s s' : S) e :
  for_each body xs s = Ok s' ->
  body s' x = Raise e ->
  for_each body (xs ++ x :: ys) s = Raise e.
Proof.
  intros Hxs Hx. rewrite for_each_app, Hxs. cbn. now rewrite Hx.
Qed.

Lemma chunks_take {A} (l : list A) (n c : nat) :
  concat (map (fun k => take n (drop (k * n) l)) (seq 0 c)) = take (c * n) l.
Proof.
  induction c as [|c IH]; [reflexivity|].
  rewrite seq_S, map_app, concat_app, IH. cbn. rewrite app_nil_r.
  rewrite take_take_drop. f_equal. lia.
Qed.

Lemma batch_count_covers (len n : nat) :
  (0 < n)%nat -> (len ≤ (len + n - 1) / n * n)%nat.
Proof.
  intros Hn.
  pose proof (Nat.div_mod_eq (len + n - 1) n) as Hdm.
  pose proof (Nat.mod_upper_bound (len + n - 1) n ltac:(lia)) as Hmod.
  nia.
Qed.

Section EmbedFacts.
Context {scalar feature pil_image : Type}.
Variable Image_open : string -> result pil_image.
Variable self : MultiModalEmbedder scalar feature pil_image.

(** With a positive batch size the batches, put end to end, are the
    documents. *)
Lemma batches_concat (documents : list (Document scalar)) (size : Z) bl :
  (0 < size)%Z ->
  batches documents size = Ok bl ->
  concat bl = documents.
Proof.
  intros Hpos. unfold batches, py_range.
  rewrite bool_decide_eq_false_2 by lia.
  rewrite bool_decide_eq_false_2 by lia. cbn.
  intros [= <-]. rewrite map_map. unfold slice.
  rewrite chunks_take. apply take_ge, batch_count_covers. lia.
Qed.

Lemma batches_ok (documents : list (Document scalar)) (size : Z) :
  (0 < size)%Z -> ∃ bl, batches documents size = Ok bl.
Proof.
  intros Hpos. unfold batches, py_range.
  rewrite bool_decide_eq_false_2 by lia.
  rewrite bool_decide_eq_false_2 by lia. cbn. eauto.
Qed.

Lemma unknown_type_has_no_converter (content_type : string) :
  content_type ∉ ContentTypes ->
  dict_get content_type (DOCUMENT_CONVERTERS (scalar:=scalar) Image_open) = None.
Proof.
  intros Hnot. unfold ContentTypes in Hnot.
  rewrite !not_elem_of_cons in Hnot. destruct Hnot as (H1 & H2 & H3 & _).
  unfold dict_get, DOCUMENT_CONVERTERS. cbn.
  rewrite !bool_decide_eq_false_2 by congruence. reflexivity.
Qed.



End EmbedFacts.

(** ** Unknown content types *)




(** ** The check of the embedding sizes *)

Lemma sizes_differ {scalar} (outputs_by_type : list (string * Tensor scalar))
    key1 out1 key2 out2 :
  (key1, out1) ∈ outputs_by_type ->
  (key2, out2) ∈ outputs_by_type ->
  t_dim out1 ≠ t_dim out2 ->
  let embedding_sizes := map (fun kv => t_dim kv.2) outputs_by_type in
  forallb (fun embedding_size =>
             bool_decide (Some embedding_size = head embedding_sizes))
          embedding_sizes = false.
Proof.
  intros H1 H2 Hne sizes.
  destruct (forallb _ sizes) eqn:Hall; [exfalso|reflexivity].
  rewrite forallb_forall in Hall.
  assert (Hsize : ∀ key out, (key, out) ∈ outputs_by_type ->
                    Some (t_dim out) = head sizes).
  { intros key out Hin.
    assert (Hin' : In (t_dim out) sizes).
    { apply list_elem_of_In in Hin.
      apply (in_map (fun kv : string * Tensor scalar => t_dim kv.2)) in Hin.
      exact Hin. }
    specialize (Hall _ Hin'). now apply bool_decide_eq_true in Hall. }
  pose proof (Hsize _ _ H1) as E1. pose proof (Hsize _ _ H2) as E2. congruence.
Qed.

(** C2, as the code has it.  Take a batch that [embed] reaches (the
    batches before it are embedded) and a pass of its loop over the content
    types of the batch that gets as far as the check of the sizes (the
    passes before it succeed, and so do the feature extraction and every
    model call of the pass).  If two of the tensors the models returned
    differ in their last dimension, [embed] raises the [ModelingError]
    whose message ends with the embedding size of each content type of the
    pass, written as a dict, and returns no matrix. *)
Theorem embed_rejects_mismatched_embedding_sizes
    {scalar feature pil_image : Type} (Image_open : string -> result pil_image)
    (self : MultiModalEmbedder scalar feature pil_image)
    (documents : list (Document scalar)) (batch_size : option Z)
    earlier batch later st data_before data_type data_list data_after
    features_by_type embeddings features outputs_by_type key1 out1 key2 out2 :
  batches documents (default (Retriever.batch_size self) batch_size)
  = Ok (earlier ++ batch :: later) ->
  for_each (embed_batch_step Image_open self) earlier ([], None) = Ok st ->
  _docs_to_data Image_open self batch
  = Ok (data_before ++ (data_type, data_list) :: data_after) ->
  for_each (embed_type_step self) data_before ([], st.2)
  = Ok (features_by_type, embeddings) ->
  features_of self data_type data_list = Ok features ->
  map_result (model_output self data_type)
    (features_by_type ++ [(data_type, features)]) = Ok outputs_by_type ->
  (key1, out1) ∈ outputs_by_type ->
  (key2, out2) ∈ outputs_by_type ->
  t_dim out1 ≠ t_dim out2 ->
  let size_of := fun kv : string * Tensor scalar =>
    "'" +:+ kv.1 +:+ "': " +:+ PyStr.of_nat (t_dim kv.2) in
  let message :=
    "Some of the models are using a different embedding size. They should all match. "
    +:+ "Embedding sizes by model: "
    +:+ "{" +:+ PyStr.join ", " (map size_of outputs_by_type) +:+ "}" in
  embed Image_open self documents batch_size = Raise (ModelingError message)
  ∧ ∀ key out, (key, out) ∈ outputs_by_type ->
      PyStr.occurs_in ("'" +:+ key +:+ "': " +:+ PyStr.of_nat (t_dim out)) message.
Proof.
  intros Hbl Hearlier Hdata Hbefore Hfeatures Houtputs H1 H2 Hne size_of message.
  split.
  - unfold embed, self_batch_size. rewrite Hbl. cbn.
    erewrite (for_each_stops _ _ _ _ _ _ _ Hearlier); [reflexivity|].
    destruct st as [all_embeddings embeddings0]. cbn in Hbefore.
    unfold embed_batch_step, embed_batch. rewrite Hdata. cbn.
    erewrite (for_each_stops _ _ _ _ _ _ _ Hbefore); [reflexivity|].
    unfold embed_type_step. rewrite Hfeatures. cbn. rewrite Houtputs. cbn.
    rewrite (sizes_differ outputs_by_type key1 out1 key2 out2 H1 H2 Hne).
    reflexivity.
  - intros key out Hin. unfold message.
    do 3 apply occurs_in_app_l. apply occurs_in_app_r, occurs_in_join.
    apply list_elem_of_fmap. exists (key, out). split; [reflexivity|exact Hin].
Qed.

Lemma embed_rejects_mismatched_embedding_sizes_witness :
  embed Examples.Image_open Examples.mispaired_embedder
    [Examples.doc "text" "a"; Examples.doc "image" "b.png"] None
  = Raise (ModelingError
             ("Some of the models are using a different embedding size. "
              +:+ "They should all match. Embedding sizes by model: "
              +:+ "{'text': 768, 'image': 512}"))
  ∧ PyStr.occurs_in "'image': 512"
      ("Some of the models are using a different embedding size. "
       +:+ "They should all match. Embedding sizes by model: "
       +:+ "{'text': 768, 'image': 512}").
Proof.
  pose proof (embed_rejects_mismatched_embedding_sizes
                Examples.Image_open Examples.mispaired_embedder
                [Examples.doc "text" "a"; Examples.doc "image" "b.png"] None
                [] [Examples.doc "text" "a"; Examples.doc "image" "b.png"] []
                ([], None)
                [("text", [PStr "a"])] "image" [PImage "b.png"] []
                [("text", RawData [PStr "a"])]
                (Some (mkTensor [replicate 768 0%Z] 768))
                (RawData [PImage "b.png"])
                [("text", mkTensor [replicate 768 0%Z] 768);
                 ("image", mkTensor [replicate 512 0%Z] 512)]
                "text" (mkTensor [replicate 768 0%Z] 768)
                "image" (mkTensor [replicate 512 0%Z] 512)) as Hsizes.
  destruct Hsizes as [Hraise Hnames].
  - vm_compute. reflexivity.
  - reflexivity.
  - vm_compute. reflexivity.
  - vm_compute. reflexivity.
  - vm_compute. reflexivity.
  - vm_compute. reflexivity.
  - apply list_elem_of_here.
  - apply list_elem_of_further, list_elem_of_here.
  - cbn. lia.
  - split.
    + etransitivity; [exact Hraise|]. vm_compute. reflexivity.
    + specialize (Hnames "image" (mkTensor [replicate 512 0%Z] 512)).
      assert (Hmsg : ∀ a a' m m', a = a' -> m = m' -> PyStr.occurs_in a m ->
                       PyStr.occurs_in a' m') by (intros ? ? ? ? -> ->; tauto).
      eapply Hmsg; [| |apply Hnames, list_elem_of_further, list_elem_of_here];
        vm_compute; reflexivity.
Defined.

(** C2, as stated, fails: a text model of width 768 and an image model of
    width 512 are given a text, a table and an image in one batch.  The
    pass of the table comes before that of the image and stops the call
    with the error about the missing table model, whose message reports no
    embedding size. *)
Lemma embed_size_check_preempted :
  embed Examples.Image_open Examples.mispaired_embedder
    [Examples.doc "text" "a"; Examples.table_doc; Examples.doc "image" "b.png"] None
  = Raise (ModelingError
             ("Some input tensor were passed for models handling table data, "
              +:+ "but no such model was initialized. They will be ignored."
              +:+ "Initialized models: text, image")).
Proof. vm_compute. reflexivity. Qed.

(** ** Batches that mix content types *)

(** C1. Within a batch the outputs are stacked content type by content
    type, in the order text, table, image.  For an image document followed
    by a text document in one batch, row 0 of the matrix is the embedding
    of the text document, the second of the list.  When the content types
    of a batch do not have the same number of documents the stacking
    fails and no matrix is returned. *)
Theorem embed_mixed_batch_loses_document_order :
  embed Examples.Image_open Examples.embedder
    [Examples.doc "image" "b.png"; Examples.doc "text" "a"] (Some 2%Z)
  = Ok (mkTensor [Examples.row_of (PStr "a"); Examples.row_of (PImage "b.png")] 2)
  ∧ Examples.row_of (PStr "a") ≠ Examples.row_of (PImage "b.png")
  ∧ embed Examples.Image_open Examples.embedder
      [Examples.doc "text" "a"; Examples.doc "text" "bc"; Examples.doc "image" "b.png"]
      (Some 3%Z)
    = Raise RuntimeError.
Proof. vm_compute. repeat split; discriminate. Qed.

(** C4. The same two documents, an image and then a text, embedded with
    batch size one and with batch size two give two different matrices:
    the rows come in document order in the first and in content-type order
    in the second. *)
Theorem embed_depends_on_batch_size :
  let documents := [Examples.doc "image" "b.png"; Examples.doc "text" "a"] in
  embed Examples.Image_open Examples.embedder documents (Some 1%Z)
  = Ok (mkTensor [[5; 1]; [1; 0]]%Z 2)
  ∧ embed Examples.Image_open Examples.embedder documents (Some 2%Z)
    = Ok (mkTensor [[1; 0]; [5; 1]]%Z 2).
Proof. vm_compute. split; reflexivity. Qed.

(** ** Batches of a single content type *)

Section SingleTypeBatches.
Context {scalar feature pil_image : Type}.
Variable Image_open : string -> result pil_image.
Variable self : MultiModalEmbedder scalar feature pil_image.

Lemma docs_to_data_step_payload docs_data (doc : Document scalar) :
  docs_to_data_step Image_open self docs_data doc
  = payload ← document_payload Image_open self doc;
    dict_append (content_type doc) payload docs_data.
Proof.
  unfold docs_to_data_step, document_payload.
  destruct (dict_get (content_type doc) (DOCUMENT_CONVERTERS Image_open))
    as [converter|]; cbn; [|reflexivity].
  destruct (converter doc) as [data|e]; cbn; [|reflexivity].
  destruct (bool_decide (embed_meta_fields self ≠ [])
            && bool_decide (content_type doc ∈ CAN_EMBED_META)); [|reflexivity].
  destruct (bool_decide _); [|reflexivity].
  destruct data; reflexivity.
Qed.

Lemma document_payload_known (doc : Document scalar) payload :
  document_payload Image_open self doc = Ok payload ->
  content_type doc ∈ ContentTypes.
Proof.
  intros Hpayload.
  destruct (decide (content_type doc ∈ ContentTypes)) as [Hin|Hnot]; [exact Hin|].
  unfold document_payload in Hpayload.
  rewrite (unknown_type_has_no_converter Image_open _ Hnot) in Hpayload.
  discriminate Hpayload.
Qed.

(** The dict of [_docs_to_data] when only the content type [t] has
    received payloads. *)
Let group (t : string) (payloads : list (Payload pil_image))
  : list (string * list (Payload pil_image)) :=
  map (fun key => (key, if bool_decide (key = t) then payloads else [])) ContentTypes.

Lemma group_nil t :
  group t [] = map (fun key => (key, [])) ContentTypes.
Proof. unfold group, ContentTypes. cbn. repeat case_bool_decide; reflexivity. Qed.

Lemma group_append t payloads payload :
  t ∈ ContentTypes ->
  dict_append t payload (group t payloads) = Ok (group t (payloads ++ [payload])).
Proof.
  unfold ContentTypes, group. rewrite !elem_of_cons.
  intros [->|[->|[->|Hnil]]]; [reflexivity..|inversion Hnil].
Qed.

Lemma group_filter t payloads :
  t ∈ ContentTypes -> payloads ≠ [] ->
  filter (fun kv : string * list (Payload pil_image) => kv.2 ≠ []) (group t payloads)
  = [(t, payloads)].
Proof.
  unfold ContentTypes, group. rewrite !elem_of_cons.
  intros [->|[->|[->|Hnil]]] Hne; [..|inversion Hnil];
    destruct payloads; try congruence; reflexivity.
Qed.

Lemma for_each_docs_single_type t (batch : list (Document scalar)) data before :
  t ∈ ContentTypes ->
  (∀ doc, doc ∈ batch -> content_type doc = t) ->
  map_result (document_payload Image_open self) batch = Ok data ->
  for_each (docs_to_data_step Image_open self) batch (group t before)
  = Ok (group t (before ++ data)).
Proof.
  intros Ht. revert data before.
  induction batch as [|doc batch IH]; intros data before Htype Hdata.
  - injection Hdata as <-. cbn. now rewrite app_nil_r.
  - cbn [for_each]. rewrite docs_to_data_step_payload.
    cbn [map_result] in Hdata.
    destruct (document_payload Image_open self doc) as [payload|e];
      [|discriminate Hdata].
    destruct (map_result _ batch) as [payloads|e] eqn:Hrest; [|discriminate Hdata].
    injection Hdata as <-.
    rewrite (Htype doc) by apply list_elem_of_here.
    cbn [mbind result_bind]. rewrite group_append by exact Ht.
    cbn [mbind result_bind].
    rewrite (IH payloads (before ++ [payload]));
      [|intros d Hd; apply Htype; now apply list_elem_of_further|reflexivity].
    now rewrite <- app_assoc.
Qed.

(** A non-empty batch of documents of one content type is converted to a
    single group that holds their payloads in document order. *)
Lemma docs_to_data_single_type t (batch : list (Document scalar)) data :
  batch ≠ [] ->
  (∀ doc, doc ∈ batch -> content_type doc = t) ->
  map_result (document_payload Image_open self) batch = Ok data ->
  _docs_to_data Image_open self batch = Ok [(t, data)].
Proof.
  intros Hne Htype Hdata.
  assert (Ht : t ∈ ContentTypes).
  { destruct batch as [|doc batch]; [congruence|]. cbn [map_result] in Hdata.
    destruct (document_payload Image_open self doc) as [payload|e] eqn:Hdoc;
      [|discriminate Hdata].
    rewrite <- (Htype doc) by apply list_elem_of_here.
    eapply document_payload_known, Hdoc. }
  unfold _docs_to_data.
  rewrite <- (group_nil t).
  rewrite (for_each_docs_single_type t batch data [] Ht Htype Hdata).
  cbn [mbind result_bind mret result_ret app].
  rewrite group_filter; [reflexivity|exact Ht|].
    apply map_result_length in Hdata. destruct data, batch; cbn in *; congruence.
Qed.


(** On such a batch [embed_batch] returns what the encoder of the content
    type returns on the payloads of the batch. *)
Lemma embed_batch_single_type t (batch : list (Document scalar)) data inputs
    rows d previous :
  batch ≠ [] ->
  (∀ doc, doc ∈ batch -> content_type doc = t) ->
  map_result (document_payload Image_open self) batch = Ok data ->
  features_of self t data = Ok inputs ->
  model_output self t (t, inputs) = Ok (t, mkTensor rows d) ->
  d ≠ 0%nat ->
  embed_batch Image_open self previous batch = Ok (Some (mkTensor rows d)).
Proof.
  intros Hne Htype Hdata Hfeatures Houtput Hd.
  unfold embed_batch.
  rewrite (docs_to_data_single_type t batch data Hne Htype Hdata).
  cbn [mbind result_bind for_each]. unfold embed_type_step.
  rewrite Hfeatures. cbn [mbind result_bind app map_result].
  rewrite Houtput. cbn.
  rewrite bool_decide_eq_true_2 by reflexivity. cbn.
  rewrite bool_decide_eq_true_2 by reflexivity. cbn.
  unfold view_rows. rewrite bool_decide_eq_false_2 by exact Hd.
  cbn. now rewrite app_nil_r.
Qed.

(** The loop over the batches collects the blocks in order. *)
Lemma for_each_batches_blocks (bl : list (list (Document scalar)))
    (block : list (Document scalar) -> Tensor scalar) all_embeddings previous :
  (∀ batch, batch ∈ bl ->
     ∀ previous, embed_batch Image_open self previous batch = Ok (Some (block batch))) ->
  ∃ last,
    for_each (embed_batch_step Image_open self) bl (all_embeddings, previous)
    = Ok (all_embeddings ++ map block bl, last).
Proof.
  revert all_embeddings previous.
  induction bl as [|batch bl IH]; intros all_embeddings previous Hblocks.
  - exists previous. cbn. now rewrite app_nil_r.
  - cbn [for_each embed_batch_step].
    rewrite (Hblocks batch) by apply list_elem_of_here.
    cbn [mbind result_bind].
    destruct (IH (all_embeddings ++ [block batch]) (Some (block batch)))
      as [last ->].
    { intros b Hb. apply Hblocks. now apply list_elem_of_further. }
    exists last. cbn. now rewrite <- app_assoc.
Qed.

Lemma batches_nonempty (documents : list (Document scalar)) (size : Z) bl batch :
  (0 < size)%Z ->
  batches documents size = Ok bl ->
  batch ∈ bl -> batch ≠ [].
Proof.
  intros Hpos. unfold batches, py_range.
  rewrite bool_decide_eq_false_2 by lia.
  rewrite bool_decide_eq_false_2 by lia. cbn.
  intros [= <-]. rewrite map_map.
  intros Hin. apply list_elem_of_fmap in Hin as (k & -> & Hk).
  apply list_elem_of_In, in_seq in Hk. unfold slice.
  set (n := Z.to_nat size) in *. assert (Hn : (0 < n)%nat) by lia.
  assert (Hlt : (k * n < length documents)%nat).
  { destruct Hk as [_ Hk]. cbn in Hk.
    pose proof (Nat.div_mod_eq (length documents + n - 1) n) as Hdm.
    pose proof (Nat.mod_upper_bound (length documents + n - 1) n ltac:(lia)).
    nia. }
  intros Hnil. apply (f_equal length) in Hnil.
  rewrite length_take, length_drop in Hnil. cbn in Hnil. lia.
Qed.

Lemma embed_single_type_rows
    (documents : list (Document scalar)) (batch_size : option Z)
    (row : Document scalar -> list scalar) (d : nat) bl :
  (0 < default (Retriever.batch_size self) batch_size)%Z ->
  documents ≠ [] ->
  d ≠ 0%nat ->
  batches documents (default (Retriever.batch_size self) batch_size) = Ok bl ->
  (∀ batch, batch ∈ bl ->
     ∃ t data inputs,
       (∀ doc, doc ∈ batch -> content_type doc = t)
       ∧ map_result (document_payload Image_open self) batch = Ok data
       ∧ features_of self t data = Ok inputs
       ∧ model_output self t (t, inputs) = Ok (t, mkTensor (map row batch) d)) ->
  embed Image_open self documents batch_size = Ok (mkTensor (map row documents) d).
Proof.
  intros Hpos Hdocs Hd Hbl Hbatches.
  pose proof (batches_concat documents _ bl Hpos Hbl) as Hcat.
  unfold embed, self_batch_size. rewrite Hbl. cbn [mbind result_bind].
  destruct (for_each_batches_blocks bl (fun batch => mkTensor (map row batch) d)
              [] None) as [last ->].
  { intros batch Hbatch previous.
    destruct (Hbatches batch Hbatch) as (t & data & inputs & Ht & Hdata & Hf & Hm).
    apply (embed_batch_single_type t batch data inputs); try assumption.
    now apply (batches_nonempty documents _ bl batch Hpos Hbl). }
  cbn [mbind result_bind fst app]. unfold np_concatenate.
  destruct bl as [|batch bl]; [cbn in Hcat; congruence|].
  cbn [map].
  assert (Hall : forallb (fun a : Tensor scalar =>
                            bool_decide (t_dim a = t_dim (mkTensor (map row batch) d)))
                   (mkTensor (map row batch) d
                    :: map (fun batch => mkTensor (map row batch) d) bl) = true).
  { apply forallb_forall. intros a Ha. apply bool_decide_eq_true_2.
    change (In a (map (fun batch => mkTensor (map row batch) d) (batch :: bl))) in Ha.
    apply in_map_iff in Ha as (b & <- & _). reflexivity. }
  rewrite Hall. f_equal. f_equal.
  change (concat (map t_rows (map (fun batch => mkTensor (map row batch) d)
                                  (batch :: bl)))
          = map row documents).
  rewrite map_map. cbn [t_rows]. rewrite <- concat_map. now rewrite Hcat.
Qed.

(** When every batch holds documents of a single content type, and the
    encoder of that type returns one row per document of the batch, in
    order and of width [d], [embed] returns the rows of all the documents
    in document order. *)
Theorem embed_single_type_batches
    (documents : list (Document scalar)) (batch_size : option Z)
    (row : Document scalar -> list scalar) (d : nat) bl :
  (0 < default (Retriever.batch_size self) batch_size)%Z ->
  documents ≠ [] ->
  d ≠ 0%nat ->
  batches documents (default (Retriever.batch_size self) batch_size) = Ok bl ->
  (∀ batch, batch ∈ bl ->
     ∃ t data inputs,
       (∀ doc, doc ∈ batch -> content_type doc = t)
       ∧ map_result (document_payload Image_open self) batch = Ok data
       ∧ features_of self t data = Ok inputs
       ∧ model_output self t (t, inputs) = Ok (t, mkTensor (map row batch) d)) ->
  embed Image_open self documents batch_size = Ok (mkTensor (map row documents) d).
Proof. apply embed_single_type_rows. Qed.

End SingleTypeBatches.

(** For such document lists the batch size does not matter. *)
Corollary embed_batch_size_irrelevant_single_type
    {scalar feature pil_image : Type} (Image_open : string -> result pil_image)
    (self : MultiModalEmbedder scalar feature pil_image)
    (documents : list (Document scalar)) (n m : Z)
    (row : Document scalar -> list scalar) (d : nat) :
  (0 < n)%Z -> (0 < m)%Z -> documents ≠ [] -> d ≠ 0%nat ->
  (∀ size batch,
     size = n ∨ size = m ->
     (∃ bl, batches documents size = Ok bl ∧ batch ∈ bl) ->
     ∃ t data inputs,
       (∀ doc, doc ∈ batch -> content_type doc = t)
       ∧ map_result (document_payload Image_open self) batch = Ok data
       ∧ features_of self t data = Ok inputs
       ∧ model_output self t (t, inputs) = Ok (t, mkTensor (map row batch) d)) ->
  embed Image_open self documents (Some n) = embed Image_open self documents (Some m).
Proof.
  intros Hn Hm Hdocs Hd Hbatches.
  destruct (batches_ok documents n Hn) as [bn Hbn].
  destruct (batches_ok documents m Hm) as [bm Hbm].
  rewrite (embed_single_type_rows Image_open self documents (Some n) row d bn);
    try assumption.
  - rewrite (embed_single_type_rows Image_open self documents (Some m) row d bm);
      try assumption; [reflexivity|].
    intros batch Hbatch. apply (Hbatches m batch); eauto.
  - intros batch Hbatch. apply (Hbatches n batch); eauto.
Qed.

(** The hypotheses of [embed_single_type_batches] hold for two texts
    followed by two images, embedded two by two. *)
Lemma embed_single_type_batches_witness :
  embed Examples.Image_open Examples.embedder
    [Examples.doc "text" "a"; Examples.doc "text" "why?";
     Examples.doc "image" "b.png"; Examples.doc "image" "c.png"] (Some 2%Z)
  = Ok (mkTensor [[1; 0]; [3; 0]; [5; 1]; [5; 1]]%Z 2).
Proof.
  pose (row := fun doc : Document Z =>
          match document_payload Examples.Image_open Examples.embedder doc with
          | Ok payload => Examples.row_of payload
          | Raise _ => []
          end).
  rewrite (embed_single_type_batches Examples.Image_open Examples.embedder _ _ row 2
             [[Examples.doc "text" "a"; Examples.doc "text" "why?"];
              [Examples.doc "image" "b.png"; Examples.doc "image" "c.png"]]).
  - vm_compute. reflexivity.
  - cbn. lia.
  - discriminate.
  - discriminate.
  - vm_compute. reflexivity.
  - intros batch Hbatch.
    apply elem_of_cons in Hbatch as [->|Hbatch];
      [|apply elem_of_cons in Hbatch as [->|Hbatch]; [|inversion Hbatch]].
    + exists "text", [PStr "a"; PStr "why"], (RawData [PStr "a"; PStr "why"]).
      repeat split; try (vm_compute; reflexivity).
      intros doc Hdoc. repeat (apply elem_of_cons in Hdoc as [->|Hdoc]; [reflexivity|]).
      inversion Hdoc.
    + exists "image", [PImage "b.png"; PImage "c.png"],
        (RawData [PImage "b.png"; PImage "c.png"]).
      repeat split; try (vm_compute; reflexivity).
      intros doc Hdoc. repeat (apply elem_of_cons in Hdoc as [->|Hdoc]; [reflexivity|]).
      inversion Hdoc.
Defined.

(** ** The alias table and the single filter, in general *)

(** Whatever the loader, a detected family [data2vec-text] ends in the
    unsupported-model error, and [data2vec-vision] in the construction of
    the image wrapper. *)
Lemma get_mm_language_model_data2vec
    {scalar feature : Type} (hf : Transformers scalar feature)
    (name : string) (model_kwargs : option (gmap string string)) :
  name ≠ "" ->
  (AutoConfig_from_pretrained hf name = Ok {| model_type := Some "data2vec-text" |} ->
   get_mm_language_model hf name model_kwargs
   = Raise (ValueError (unsupported_model_message
                          name " Data2VecTextForQuestionAnswering")))
  ∧ (AutoConfig_from_pretrained hf name = Ok {| model_type := Some "data2vec-vision" |} ->
     get_mm_language_model hf name model_kwargs
     = new_language_model hf ImageLanguageModel name
         "Data2VecVisionForImageClassification" model_kwargs).
Proof.
  intros Hname. unfold get_mm_language_model.
  rewrite (bool_decide_eq_false_2 _ Hname).
  split; intros ->; reflexivity.
Qed.

(** The alias of [data2vec-text] is the only entry of the alias table whose
    value is not a key of the registry. *)
Lemma alias_table_registered (family key : string) :
  HUGGINGFACE_CAPITALIZE !! family = Some key ->
  family = "data2vec-text" ∨ key ∈ (HUGGINGFACE_TO_HAYSTACK.*1).
Proof.
  revert family key.
  change (map_Forall (fun family key =>
            family = "data2vec-text" ∨ key ∈ (HUGGINGFACE_TO_HAYSTACK.*1))
            HUGGINGFACE_CAPITALIZE).
  apply (bool_decide_unpack _). vm_compute. exact I.
Qed.

(** A single filter is checked like a list: its number of keys against
    the number of queries. *)
Lemma retrieve_batch_single_filter_count
    {scalar feature pil_image : Type} (Image_open : string -> result pil_image)
    (self : MultiModalRetriever scalar feature pil_image)
    queries content_type (f : FilterType) top_k index headers batch_size scale_score :
  length f ≠ length queries ->
  retrieve_batch Image_open self queries content_type (OneFilter f)
    top_k index headers batch_size scale_score
  = Raise (MultiModalRetrieverError filter_count_message).
Proof.
  intros Hlen. unfold retrieve_batch, query_calls. cbn.
  now rewrite (bool_decide_eq_true_2 _ Hlen).
Qed.

(** * Further properties of the code *)

(** ** The decorator of the loader *)

(** The decorated function returns what the function returns.  The logger
    is back at its original level when the function returns, whatever the
    function did to it, and keeps the level the function left when the
    function raises. *)
Theorem silence_transformers_logs_level {A} (f : Z -> Z * result A) (level : Z) :
  (silence_transformers_logs f level).2 = (f ERROR).2
  ∧ (∀ r, (f ERROR).2 = Ok r -> (silence_transformers_logs f level).1 = level)
  ∧ (∀ e, (f ERROR).2 = Raise e ->
       (silence_transformers_logs f level).1 = (f ERROR).1).
Proof.
  unfold silence_transformers_logs.
  destruct (f ERROR) as [level_after [r|e]]; cbn;
    repeat split; intros; congruence.
Qed.

(** ** The names a wrapper accepts *)

Lemma forward_unfold {scalar feature : Type}
    (lm : MultiModalLanguageModel scalar feature) (kwargs : gmap string feature) :
  forward lm kwargs
  = if bool_decide ((expected_inputs (lm_class lm)).1 ⊆ dom kwargs)
       && bool_decide (dom kwargs ⊆ (expected_inputs (lm_class lm)).1
                                     ∪ (expected_inputs (lm_class lm)).2)
    then _forward lm kwargs
    else ([], Raise (ModelingError
                       (forward_error_message kwargs
                          (expected_inputs (lm_class lm)).1
                          ((expected_inputs (lm_class lm)).1
                           ∪ (expected_inputs (lm_class lm)).2)))).
Proof.
  unfold forward. destruct (expected_inputs (lm_class lm)) as [m o]. cbn.
  destruct (bool_decide (m ⊆ dom kwargs) && bool_decide (dom kwargs ⊆ m ∪ o));
    reflexivity.
Qed.

Lemma forward_runs_iff {scalar feature : Type}
    (lm : MultiModalLanguageModel scalar feature) (kwargs : gmap string feature) :
  (forward lm kwargs).1 = [kwargs]
  ↔ (expected_inputs (lm_class lm)).1 ⊆ dom kwargs
    ∧ dom kwargs ⊆ (expected_inputs (lm_class lm)).1
                   ∪ (expected_inputs (lm_class lm)).2.
Proof.
  rewrite forward_unfold.
  destruct (decide ((expected_inputs (lm_class lm)).1 ⊆ dom kwargs)) as [H1|H1];
    destruct (decide (dom kwargs ⊆ (expected_inputs (lm_class lm)).1
                                   ∪ (expected_inputs (lm_class lm)).2)) as [H2|H2];
    rewrite ?(bool_decide_eq_true_2 _ H1), ?(bool_decide_eq_false_2 _ H1),
            ?(bool_decide_eq_true_2 _ H2), ?(bool_decide_eq_false_2 _ H2);
    cbn; split; try tauto; try discriminate; intros; reflexivity.
Qed.

(** The wrapped model of a text wrapper is called exactly when the
    keyword arguments are [input_ids], [token_type_ids] and
    [attention_mask], no more and no less; that of the image wrapper when
    [pixel_values] is given and nothing is given besides it,
    [bool_masked_pos] and [head_mask]. *)
Theorem forward_accepted_names {scalar feature : Type}
    (lm : MultiModalLanguageModel scalar feature) (kwargs : gmap string feature) :
  (forward lm kwargs).1 = [kwargs]
  ↔ match lm_class lm with
    | TextLanguageModel | TextLanguageModelPlusPooler =>
        dom kwargs = {[ "input_ids"; "token_type_ids"; "attention_mask" ]}
    | ImageLanguageModel =>
        "pixel_values" ∈ dom kwargs
        ∧ dom kwargs ⊆ {[ "pixel_values"; "bool_masked_pos"; "head_mask" ]}
    end.
Proof.
  rewrite forward_runs_iff. destruct (lm_class lm); cbn; set_solver.
Qed.

(** Whatever the wrapper, a call of [forward] without any keyword argument
    is rejected before the wrapped model is called, and no name is both
    mandatory and optional. *)
Theorem forward_rejects_no_arguments {scalar feature : Type}
    (lm : MultiModalLanguageModel scalar feature) :
  (expected_inputs (lm_class lm)).1 ## (expected_inputs (lm_class lm)).2
  ∧ ∃ msg, forward lm (∅ : gmap string feature) = ([], Raise (ModelingError msg)).
Proof.
  split.
  - destruct (lm_class lm); cbn; set_solver.
  - rewrite forward_unfold.
    rewrite (bool_decide_eq_false_2 (_ ⊆ dom (∅ : gmap string feature))).
    + cbn. eauto.
    + rewrite dom_empty_L. destruct (lm_class lm); cbn; set_solver.
Qed.

(** ** Resolution of the wrapper class, in general *)

Lemma registry_find_AutoModel :
  list_find (fun kv : string * WrapperClass => kv.1 = "AutoModel")
    HUGGINGFACE_TO_HAYSTACK
  = Some (0%nat, ("AutoModel", TextLanguageModel)).
Proof. vm_compute. reflexivity. Qed.

Lemma get_mm_language_model_detected
    {scalar feature : Type} (hf : Transformers scalar feature)
    (name detected : string) (model_kwargs : option (gmap string string)) :
  name ≠ "" ->
  AutoConfig_from_pretrained hf name = Ok {| model_type := Some detected |} ->
  get_mm_language_model hf name model_kwargs
  = let key := default "AutoModel" (HUGGINGFACE_CAPITALIZE !! PyStr.lower detected) in
    match list_find (fun kv : string * WrapperClass => kv.1 = key)
            HUGGINGFACE_TO_HAYSTACK with
    | None => Raise (ValueError (unsupported_model_message name key))
    | Some (_, (_, cls)) => new_language_model hf cls name key model_kwargs
    end.
Proof.
  intros Hname Hconfig. unfold get_mm_language_model.
  rewrite (bool_decide_eq_false_2 _ Hname), Hconfig. reflexivity.
Qed.

Lemma get_mm_language_model_fallback
    {scalar feature : Type} (hf : Transformers scalar feature)
    (name detected : string) (model_kwargs : option (gmap string string)) :
  name ≠ "" ->
  AutoConfig_from_pretrained hf name = Ok {| model_type := Some detected |} ->
  HUGGINGFACE_CAPITALIZE !! PyStr.lower detected = None ->
  get_mm_language_model hf name model_kwargs
  = new_language_model hf TextLanguageModel name "AutoModel" model_kwargs.
Proof.
  intros Hname Hconfig Hnone.
  rewrite (get_mm_language_model_detected hf name detected model_kwargs Hname Hconfig).
  rewrite Hnone. cbn [default from_option id]. cbv zeta.
  now rewrite registry_find_AutoModel.
Qed.

(** A detected family that the alias table does not know, under any
    capitalization, is loaded as [AutoModel] behind the text wrapper: no
    error is raised for it by the resolution itself. *)
Theorem get_mm_language_model_unknown_family
    {scalar feature : Type} (hf : Transformers scalar feature)
    (name detected : string) (model_kwargs : option (gmap string string)) :
  name ≠ "" ->
  AutoConfig_from_pretrained hf name = Ok {| model_type := Some detected |} ->
  HUGGINGFACE_CAPITALIZE !! PyStr.lower detected = None ->
  get_mm_language_model hf name model_kwargs
  = new_language_model hf TextLanguageModel name "AutoModel" model_kwargs.
Proof.
  apply get_mm_language_model_fallback.
Qed.

Lemma get_mm_language_model_unknown_family_witness :
  lm_class <$> get_mm_language_model (Examples.hub "BERT") "bert-base-uncased" None
  = Ok TextLanguageModel.
Proof.
  rewrite (get_mm_language_model_unknown_family (Examples.hub "BERT")
             "bert-base-uncased" "BERT" None).
  - reflexivity.
  - discriminate.
  - reflexivity.
  - vm_compute. reflexivity.
Defined.

(** The unsupported-model error is raised for the family [data2vec-text]
    only: for every other detected family the call goes on to build a
    wrapper of a class of the registry, under a key of the registry. *)
Theorem get_mm_language_model_builds_registered_wrapper
    {scalar feature : Type} (hf : Transformers scalar feature)
    (name detected : string) (model_kwargs : option (gmap string string)) :
  name ≠ "" ->
  AutoConfig_from_pretrained hf name = Ok {| model_type := Some detected |} ->
  PyStr.lower detected ≠ "data2vec-text" ->
  ∃ key cls,
    (key, cls) ∈ HUGGINGFACE_TO_HAYSTACK
    ∧ get_mm_language_model hf name model_kwargs
      = new_language_model hf cls name key model_kwargs.
Proof.
  intros Hname Hconfig Hother.
  rewrite (get_mm_language_model_detected hf name detected model_kwargs Hname Hconfig).
  destruct (HUGGINGFACE_CAPITALIZE !! PyStr.lower detected) as [key|] eqn:Halias;
    cbn [default from_option id]; cbv zeta.
  - destruct (alias_table_registered _ _ Halias) as [Heq|Hin]; [contradiction|].
    apply list_elem_of_fmap in Hin as ([key' cls] & -> & Hin).
    destruct (list_find_elem_of (fun kv : string * WrapperClass => kv.1 = key')
                HUGGINGFACE_TO_HAYSTACK (key', cls) Hin eq_refl)
      as [[i [k c]] Hfind].
    cbn [fst]. rewrite Hfind.
    apply list_find_Some in Hfind as (Hlook & Hk & _). cbn in Hk. subst k.
    exists key', c. split; [|reflexivity].
    eapply list_elem_of_lookup_2, Hlook.
  - rewrite registry_find_AutoModel.
    exists "AutoModel", TextLanguageModel. split; [|reflexivity].
    apply list_elem_of_here.
Qed.

Lemma get_mm_language_model_builds_registered_wrapper_witness :
  ∃ key cls,
    (key, cls) ∈ HUGGINGFACE_TO_HAYSTACK
    ∧ get_mm_language_model (Examples.hub "Data2Vec-Vision")
        "facebook/data2vec-vision-base" None
      = new_language_model (Examples.hub "Data2Vec-Vision") cls
          "facebook/data2vec-vision-base" key None.
Proof.
  apply (get_mm_language_model_builds_registered_wrapper
           (Examples.hub "Data2Vec-Vision") "facebook/data2vec-vision-base"
           "Data2Vec-Vision" None).
  - discriminate.
  - reflexivity.
  - vm_compute. discriminate.
Defined.

(** The detected family is read without regard to case: two
    configurations whose families differ in capitalization only lead to the
    same outcome. *)
Theorem get_mm_language_model_ignores_case
    {scalar feature : Type} (hf hf' : Transformers scalar feature)
    (name detected detected' : string) (model_kwargs : option (gmap string string)) :
  name ≠ "" ->
  from_pretrained hf = from_pretrained hf' ->
  AutoConfig_from_pretrained hf name = Ok {| model_type := Some detected |} ->
  AutoConfig_from_pretrained hf' name = Ok {| model_type := Some detected' |} ->
  PyStr.lower detected = PyStr.lower detected' ->
  get_mm_language_model hf name model_kwargs
  = get_mm_language_model hf' name model_kwargs.
Proof.
  intros Hname Hloader Hconfig Hconfig' Hlower.
  rewrite (get_mm_language_model_detected hf name detected model_kwargs Hname Hconfig).
  rewrite (get_mm_language_model_detected hf' name detected' model_kwargs Hname Hconfig').
  rewrite Hlower. cbv zeta.
  destruct (list_find _ _) as [[i [k cls]]|]; [|reflexivity].
  unfold new_language_model. now rewrite Hloader.
Qed.

Lemma get_mm_language_model_ignores_case_witness :
  get_mm_language_model (Examples.hub "DATA2VEC-Vision")
    "facebook/data2vec-vision-base" None
  = get_mm_language_model (Examples.hub "data2vec-vision")
      "facebook/data2vec-vision-base" None.
Proof.
  apply (get_mm_language_model_ignores_case
           (Examples.hub "DATA2VEC-Vision") (Examples.hub "data2vec-vision")
           "facebook/data2vec-vision-base" "DATA2VEC-Vision" "data2vec-vision" None).
  - discriminate.
  - reflexivity.
  - reflexivity.
  - reflexivity.
  - vm_compute. reflexivity.
Defined.

(** An empty identifier is refused with a [ValueError] before the
    configuration is looked up.  A configuration without a model type makes
    the call fail with an [AttributeError] and is not loaded as [AutoModel],
    whereas an empty model type is. *)
Theorem get_mm_language_model_edge_cases
    {scalar feature : Type} (hf : Transformers scalar feature)
    (name : string) (model_kwargs : option (gmap string string)) :
  get_mm_language_model hf "" model_kwargs
  = Raise (ValueError " is not a valid pretrained_model_name_or_path parameter")
  ∧ (name ≠ "" ->
     AutoConfig_from_pretrained hf name = Ok {| model_type := None |} ->
     get_mm_language_model hf name model_kwargs = Raise AttributeError)
  ∧ (name ≠ "" ->
     AutoConfig_from_pretrained hf name = Ok {| model_type := Some "" |} ->
     get_mm_language_model hf name model_kwargs
     = new_language_model hf TextLanguageModel name "AutoModel" model_kwargs).
Proof.
  split; [reflexivity|]. split.
  - intros Hname Hconfig. unfold get_mm_language_model.
    rewrite (bool_decide_eq_false_2 _ Hname), Hconfig. reflexivity.
  - intros Hname Hconfig.
    apply (get_mm_language_model_fallback hf name "" model_kwargs Hname Hconfig).
    vm_compute. reflexivity.
Qed.

Lemma get_mm_language_model_edge_cases_witness :
  let hf : Transformers Z Z :=
    {| AutoConfig_from_pretrained := fun _ => Ok {| model_type := None |};
       from_pretrained := from_pretrained (Examples.hub "") |} in
  get_mm_language_model hf "local/checkpoint" None = Raise AttributeError
  ∧ lm_class <$> get_mm_language_model (Examples.hub "") "local/checkpoint" None
    = Ok TextLanguageModel.
Proof.
  intros hf. split.
  - apply (get_mm_language_model_edge_cases hf "local/checkpoint" None);
      [discriminate|reflexivity].
  - rewrite (proj2 (proj2 (get_mm_language_model_edge_cases
                             (Examples.hub "") "local/checkpoint" None)));
      [reflexivity|discriminate|reflexivity].
Defined.

(** ** The parameters handed to the loader *)

(** The constructor of a wrapper loads the pretrained model with the
    parameters of the caller, to which it adds [add_pooling_layer = True]
    for [Data2VecVisionForImageClassification] unless the caller sets that
    parameter; no other parameter is added. *)
Theorem new_language_model_params
    {scalar feature : Type} (hf : Transformers scalar feature)
    (cls : WrapperClass) (name model_type : string)
    (model_kwargs : option (gmap string string)) :
  ∃ params : gmap string string,
    new_language_model hf cls name model_type model_kwargs
    = ('(model, pooler) ← from_pretrained hf model_type name params;
       mret {| lm_class := cls; lm_model_type := model_type;
               lm_model := model; lm_pooler := pooler |})
    ∧ (∀ k v, default ∅ model_kwargs !! k = Some v -> params !! k = Some v)
    ∧ (default ∅ model_kwargs !! "add_pooling_layer" = None ->
       model_type = "Data2VecVisionForImageClassification" ->
       params !! "add_pooling_layer" = Some "True")
    ∧ (∀ k, default ∅ model_kwargs !! k = None ->
         model_type ≠ "Data2VecVisionForImageClassification"
         ∨ k ≠ "add_pooling_layer" ->
         params !! k = None).
Proof.
  eexists. split; [reflexivity|]. unfold dict_or, HUGGINGFACE_DEFAULT_MODEL_PARAMS.
  repeat split.
  - intros k v Hk. now apply lookup_union_Some_l.
  - intros Hnone ->. rewrite lookup_union_r by exact Hnone.
    rewrite lookup_singleton_eq. cbn. now rewrite lookup_singleton_eq.
  - intros k Hnone Hother. rewrite lookup_union_r by exact Hnone.
    destruct (decide (model_type = "Data2VecVisionForImageClassification")) as [->|Hne].
    + rewrite lookup_singleton_eq. cbn.
      destruct Hother as [Hmt|Hk]; [congruence|].
      now rewrite lookup_singleton_ne.
    + rewrite lookup_singleton_ne by congruence. cbn. apply lookup_empty.
Qed.

(** ** [flatten] *)

Lemma flatten_list_app {A} (xs ys : list (Nested A)) :
  flatten (NestedList (xs ++ ys))
  = flatten (NestedList xs) ++ flatten (NestedList ys).
Proof. cbn. now rewrite map_app, concat_app. Qed.

(** The two examples of the docstring. *)
Example flatten_docstring :
  flatten (NestedList
             [Item 1; Item 2; Item 3; NestedList [Item 4]; NestedList [];
              NestedList [NestedList [NestedList [NestedList [Item 5]]]]])
  = [1; 2; 3; 4; 5]%nat
  ∧ flatten (NestedList [NestedList [Item 1; Item 2]; Item 3]) = [1; 2; 3]%nat.
Proof. split; reflexivity. Qed.

(** Nesting does not matter: a list placed inside a list yields what its
    items yield when they are placed there directly. *)
Theorem flatten_splice {A} (xs ys zs : list (Nested A)) :
  flatten (NestedList (xs ++ NestedList ys :: zs))
  = flatten (NestedList (xs ++ ys ++ zs)).
Proof.
  rewrite !flatten_list_app.
  change (NestedList ys :: zs) with ([NestedList ys] ++ zs).
  rewrite flatten_list_app. cbn. now rewrite app_nil_r.
Qed.

(** A list without nested lists is returned as it is, so that flattening
    a second time changes nothing; a value that is not a list is yielded
    alone. *)
Theorem flatten_flat {A} (l : list A) (n : Nested A) (a : A) :
  flatten (NestedList (map Item l)) = l
  ∧ flatten (NestedList (map Item (flatten n))) = flatten n
  ∧ flatten (Item a) = [a].
Proof.
  assert (Hflat : ∀ l : list A, flatten (NestedList (map Item l)) = l).
  { intros l'. cbn. induction l' as [|x l' IH]; [reflexivity|].
    cbn. now rewrite IH. }
  repeat split; [apply Hflat|apply Hflat].
Qed.

(** ** [get_features] and [get_devices] *)

(** [get_features] hands texts and tables to the text sample class and
    images to the image sample class, and raises the [ModelingError] that
    names the data type for any other data type, without calling a sample
    class. *)
Theorem get_features_by_data_type
    {feature pil_image : Type} (data : list (Payload pil_image))
    (data_type : string) (feature_extractor : FeatureExtractor feature pil_image) :
  (data_type = "text" ∨ data_type = "table" ->
   get_features data data_type feature_extractor
   = sample_features feature_extractor TextSample data)
  ∧ (data_type = "image" ->
     get_features data data_type feature_extractor
     = sample_features feature_extractor ImageSample data)
  ∧ (data_type ∉ ContentTypes ->
     get_features data data_type feature_extractor
     = Raise (ModelingError
                ("Data type '" +:+ data_type +:+ "' not recognized. "
                 +:+ "Please select one data type among text, table, image"))).
Proof.
  repeat split.
  - intros [-> | ->]; reflexivity.
  - intros ->. reflexivity.
  - intros Hnot. unfold ContentTypes in Hnot.
    rewrite !not_elem_of_cons in Hnot. destruct Hnot as (H1 & H2 & H3 & _).
    unfold get_features, dict_get, SAMPLES_BY_DATATYPE. cbn.
    rewrite !bool_decide_eq_false_2 by congruence. reflexivity.
Qed.

Lemma map_result_lookup {A B} (f : A -> result B) (items : list A) out i x :
  map_result f items = Ok out ->
  items !! i = Some x ->
  ∃ y, out !! i = Some y ∧ f x = Ok y.
Proof.
  revert out i. induction items as [|x0 items IH]; intros out i; [discriminate 2|].
  cbn [map_result]. destruct (f x0) as [y0|e] eqn:Hx0; [|discriminate].
  cbn [mbind result_bind].
  destruct (map_result f items) as [ys|e]; [|discriminate].
  cbn. intros [= <-] Hlook. destruct i as [|i]; cbn in *.
  - injection Hlook as <-. eauto.
  - now apply (IH ys i eq_refl).
Qed.

(** With an explicit list, [get_devices] returns the devices that
    [torch.device] makes of the names, one per name and in order, and
    fails when [torch.device] refuses one of the names.  Without a list it
    returns one device per accelerator when CUDA is available (none if
    CUDA reports no accelerator), and the device [torch.device("cpu")]
    alone otherwise. *)
Theorem get_devices_choice (torch_device : TorchDevice) (cuda : Cuda)
    (devices : list string) :
  (∀ out, get_devices torch_device cuda (Some devices) = Ok out ->
     length out = length devices
     ∧ ∀ i name, devices !! i = Some name ->
         ∃ device, out !! i = Some device ∧ torch_device name = Ok device)
  ∧ (∀ name e0, name ∈ devices -> torch_device name = Raise e0 ->
       ∃ e, get_devices torch_device cuda (Some devices) = Raise e)
  ∧ (is_available cuda = true ->
     get_devices torch_device cuda None
     = Ok (map DeviceIndex (seq 0 (device_count cuda))))
  ∧ (is_available cuda = false ->
     get_devices torch_device cuda None
     = (device ← torch_device "cpu"; mret [device])).
Proof.
  unfold get_devices. split; [|repeat split].
  - intros out Hout. split; [now apply map_result_length in Hout|].
    intros i name Hname.
    now apply (map_result_lookup torch_device devices out i name).
  - intros name e0 Hin Hname.
    now apply (map_result_raises torch_device devices name e0).
  - intros ->. reflexivity.
  - intros ->. reflexivity.
Qed.

(** ** The grouping done by [_docs_to_data] *)

Section DocsToData.
Context {scalar feature pil_image : Type}.
Variable Image_open : string -> result pil_image.
Variable self : MultiModalEmbedder scalar feature pil_image.

(** The payloads of the documents of one content type, in document order. *)
Let payloads_of (key : string)
    (pairs : list (Document scalar * Payload pil_image)) : list (Payload pil_image) :=
  (filter (fun dp : Document scalar * Payload pil_image => content_type dp.1 = key)
          pairs).*2.

Let groups_of (g : string -> list (Payload pil_image))
  : list (string * list (Payload pil_image)) :=
  map (fun key => (key, g key)) ContentTypes.

Lemma groups_of_ext g g' :
  (∀ key, g key = g' key) -> groups_of g = groups_of g'.
Proof. intros Hext. unfold groups_of. apply map_ext. intros key. now rewrite Hext. Qed.

Lemma groups_of_append g t payload :
  t ∈ ContentTypes ->
  dict_append t payload (groups_of g)
  = Ok (groups_of (fun key => if bool_decide (key = t)
                              then g key ++ [payload] else g key)).
Proof.
  unfold ContentTypes, groups_of. rewrite !elem_of_cons.
  intros [->|[->|[->|Hnil]]]; [reflexivity..|inversion Hnil].
Qed.

Lemma for_each_docs_groups (documents : list (Document scalar)) g :
  for_each (docs_to_data_step Image_open self) documents (groups_of g)
  = data ← map_result (document_payload Image_open self) documents;
    mret (groups_of (fun key => g key ++ payloads_of key (zip documents data))).
Proof.
  revert g. induction documents as [|doc documents IH]; intros g.
  - cbn [for_each map_result mbind result_bind mret result_ret].
    f_equal. apply groups_of_ext. intros key.
    unfold payloads_of. cbn. now rewrite app_nil_r.
  - cbn [for_each map_result]. rewrite docs_to_data_step_payload.
    destruct (document_payload Image_open self doc) as [payload|e] eqn:Hdoc;
      [|reflexivity].
    cbn [mbind result_bind].
    rewrite groups_of_append by (eapply document_payload_known, Hdoc).
    cbn [mbind result_bind]. rewrite IH.
    destruct (map_result _ documents) as [payloads|e]; [|reflexivity].
    cbn [mbind result_bind mret result_ret].
    f_equal. apply groups_of_ext. intros key. unfold payloads_of.
    cbn [zip zip_with]. rewrite filter_cons. cbn [fst].
    destruct (decide (content_type doc = key)) as [<-|Hne].
    + rewrite ?bool_decide_eq_true_2 by reflexivity.
      cbn [fmap list_fmap snd]. now rewrite <- app_assoc.
    + rewrite ?bool_decide_eq_false_2 by congruence. reflexivity.
Qed.

Lemma docs_to_data_unfold (documents : list (Document scalar)) :
  _docs_to_data Image_open self documents
  = data ← map_result (document_payload Image_open self) documents;
    mret (filter (fun kv : string * list (Payload pil_image) => kv.2 ≠ [])
            (groups_of (fun key => payloads_of key (zip documents data)))).
Proof.
  unfold _docs_to_data.
  change (map (fun key => (key, [])) ContentTypes)
    with (groups_of (fun _ => [])).
  rewrite for_each_docs_groups.
  destruct (map_result _ documents) as [data|e]; reflexivity.
Qed.

(** [_docs_to_data] converts the documents one after the other, stops at
    the first that cannot be converted, and returns, for text, table and
    image in this order, the payloads of the documents of that content type
    in document order, leaving out the content types without document. *)
Theorem docs_to_data_groups (documents : list (Document scalar)) :
  _docs_to_data Image_open self documents
  = data ← map_result (document_payload Image_open self) documents;
    mret (filter (fun kv : string * list (Payload pil_image) => kv.2 ≠ [])
            (map (fun key =>
                    (key,
                     (filter (fun dp : Document scalar * Payload pil_image =>
                                content_type dp.1 = key)
                             (zip documents data)).*2))
                 ContentTypes)).
Proof. apply docs_to_data_unfold. Qed.

Lemma concat_filter_nonempty {X} (l : list (string * list X)) :
  concat ((filter (fun kv : string * list X => kv.2 ≠ []) l).*2) = concat (l.*2).
Proof.
  induction l as [|[k v] l IH]; [reflexivity|].
  rewrite filter_cons. cbn. destruct (decide (v ≠ [])) as [Hne|Heq]; cbn.
  - now rewrite IH.
  - destruct v; [exact IH|]. exfalso. apply Heq. discriminate.
Qed.

Lemma map_result_Forall {A B} (f : A -> result B) (items : list A) out :
  map_result f items = Ok out -> Forall (fun x => ∃ y, f x = Ok y) items.
Proof.
  revert out. induction items as [|x items IH]; intros out; [constructor|].
  cbn. destruct (f x) as [y|e] eqn:Hx; cbn; [|discriminate].
  destruct (map_result f items) as [ys|e]; cbn; [|discriminate].
  intros _. constructor; eauto.
Qed.

Lemma payloads_partition (pairs : list (Document scalar * Payload pil_image)) :
  Forall (fun dp => content_type dp.1 ∈ ContentTypes) pairs ->
  payloads_of "text" pairs ++ payloads_of "table" pairs ++ payloads_of "image" pairs
  ≡ₚ pairs.*2.
Proof.
  unfold payloads_of.
  induction 1 as [|[doc payload] pairs Hknown _ IH]; [reflexivity|].
  rewrite !filter_cons. cbn [fst] in *.
  unfold ContentTypes in Hknown. rewrite !elem_of_cons in Hknown.
  destruct Hknown as [->|[->|[->|Hnil]]]; [| | |inversion Hnil].
  - rewrite decide_True by reflexivity.
    rewrite !decide_False by discriminate. cbn. now rewrite IH.
  - rewrite (decide_True (P:="table" = "table")) by reflexivity.
    rewrite !decide_False by discriminate. cbn.
    rewrite <- IH. symmetry. apply Permutation_middle.
  - rewrite (decide_True (P:="image" = "image")) by reflexivity.
    rewrite !decide_False by discriminate. cbn.
    rewrite <- IH. rewrite !app_assoc. symmetry. apply Permutation_middle.
Qed.

(** The groups returned by [_docs_to_data] come in the order text, table,
    image whatever the order of the documents, none of them is empty, and
    together they hold the payload of every document once. *)
Theorem docs_to_data_shape (documents : list (Document scalar)) groups :
  _docs_to_data Image_open self documents = Ok groups ->
  groups.*1 `sublist_of` ContentTypes
  ∧ Forall (fun kv => kv.2 ≠ []) groups
  ∧ ∃ data,
      map_result (document_payload Image_open self) documents = Ok data
      ∧ concat (groups.*2) ≡ₚ data.
Proof.
  rewrite docs_to_data_unfold.
  destruct (map_result _ documents) as [data|e] eqn:Hdata; [|discriminate].
  cbn [mbind result_bind mret result_ret]. intros [= <-]. repeat split.
  - etransitivity; [apply fmap_sublist, sublist_filter|].
    unfold groups_of. rewrite <- list_fmap_compose. now rewrite list_fmap_id.
  - apply Forall_forall. intros kv Hkv.
    now apply list_elem_of_filter in Hkv as [Hne _].
  - exists data. split; [reflexivity|].
    rewrite concat_filter_nonempty. unfold groups_of, ContentTypes. cbn.
    rewrite app_nil_r.
    rewrite payloads_partition.
    + apply map_result_length in Hdata. rewrite snd_zip by lia. reflexivity.
    + apply map_result_Forall in Hdata.
      apply Forall_forall. intros [doc payload] Hin. cbn.
      apply elem_of_zip_l in Hin.
      rewrite Forall_forall in Hdata. destruct (Hdata doc Hin) as [y Hy].
      eapply document_payload_known, Hy.
Qed.

End DocsToData.

Lemma docs_to_data_shape_witness :
  let groups := [ ("text", [PStr "a"]);
                  ("image", [PImage "b.png"; PImage "c.png"]) ] in
  groups.*1 `sublist_of` ContentTypes
  ∧ Forall (fun kv : string * list (Payload string) => kv.2 ≠ []) groups
  ∧ ∃ data,
      map_result (document_payload Examples.Image_open Examples.embedder)
        [Examples.doc "image" "b.png"; Examples.doc "text" "a";
         Examples.doc "image" "c.png"] = Ok data
      ∧ concat (groups.*2) ≡ₚ data.
Proof.
  intros groups.
  apply (docs_to_data_shape Examples.Image_open Examples.embedder
           [Examples.doc "image" "b.png"; Examples.doc "text" "a";
            Examples.doc "image" "c.png"] groups).
  vm_compute. reflexivity.
Defined.

(** ** What a document contributes to its payload *)

Section Payloads.
Context {scalar feature pil_image : Type}.
Variable Image_open : string -> result pil_image.

(** When some metadata field is to be embedded, the payload of a document
    depends on its metadata through the keys only: neither the values of
    the metadata nor the fields that the embedder was asked to embed play
    a part. *)
Theorem document_payload_meta_keys_only
    (self self' : MultiModalEmbedder scalar feature pil_image)
    (doc doc' : Document scalar) :
  embed_meta_fields self ≠ [] ->
  embed_meta_fields self' ≠ [] ->
  content doc = content doc' ->
  content_type doc = content_type doc' ->
  (default [] (meta doc)).*1 = (default [] (meta doc')).*1 ->
  document_payload Image_open self doc = document_payload Image_open self' doc'.
Proof.
  intros Hfields Hfields' Hcontent Htype Hkeys. unfold document_payload.
  rewrite <- Htype, <- Hkeys.
  rewrite (bool_decide_eq_true_2 _ Hfields), (bool_decide_eq_true_2 _ Hfields').
  destruct (dict_get (content_type doc) (DOCUMENT_CONVERTERS Image_open))
    as [converter|] eqn:Hget; [|reflexivity].
  assert (Hconv : converter doc = converter doc').
  { unfold dict_get, DOCUMENT_CONVERTERS in Hget. cbn in Hget.
    repeat case_bool_decide; cbn in Hget; try discriminate;
      injection Hget as <-;
      unfold convert_text, convert_table, convert_image;
      now rewrite Hcontent. }
  cbn [mbind result_bind]. now rewrite Hconv.
Qed.

(** The payload of an image document is the decoded image, whatever its
    metadata; and an embedder with no metadata field to embed hands every
    document to its converter and leaves the output as it is. *)
Theorem document_payload_without_prefix
    (self : MultiModalEmbedder scalar feature pil_image) (doc : Document scalar) :
  (content_type doc = "image" ->
   document_payload Image_open self doc = convert_image Image_open doc)
  ∧ (embed_meta_fields self = [] ->
     ∀ converter,
       dict_get (content_type doc) (DOCUMENT_CONVERTERS Image_open) = Some converter ->
       document_payload Image_open self doc = converter doc).
Proof.
  split.
  - intros Htype. unfold document_payload. rewrite Htype.
    assert (Hget : dict_get "image" (DOCUMENT_CONVERTERS (scalar:=scalar) Image_open)
                   = Some (convert_image Image_open)) by reflexivity.
    assert (Hmeta : bool_decide ("image" ∈ CAN_EMBED_META) = false) by reflexivity.
    rewrite Hget, Hmeta, andb_false_r. cbn.
    destruct (convert_image Image_open doc); reflexivity.
  - intros Hfields converter Hget. unfold document_payload.
    rewrite Hget, Hfields. cbn. destruct (converter doc); reflexivity.
Qed.

End Payloads.

Lemma document_payload_meta_keys_only_witness :
  document_payload Examples.Image_open Examples.embedder
    (Examples.doc_with "text" "Paris" [("name", "a.txt")] None None)
  = document_payload Examples.Image_open Examples.titled_embedder
      (Examples.doc_with "text" "Paris" [("name", "another.txt")]
         (Some [1%Z]) (Some 2%Z)).
Proof.
  apply document_payload_meta_keys_only;
    [discriminate | discriminate | reflexivity | reflexivity | reflexivity].
Defined.

Lemma document_payload_without_prefix_witness :
  document_payload Examples.Image_open Examples.embedder
    (Examples.doc_with "image" "b.png" [("name", "b.png")] None None)
  = Ok (PImage "b.png")
  ∧ document_payload Examples.Image_open Examples.plain_embedder
      (Examples.doc_with "text" "Paris" [("name", "a.txt")] None None)
    = Ok (PStr "Paris").
Proof.
  split.
  - rewrite (proj1 (document_payload_without_prefix Examples.Image_open
                      Examples.embedder
                      (Examples.doc_with "image" "b.png" [("name", "b.png")]
                         None None))); reflexivity.
  - rewrite (proj2 (document_payload_without_prefix Examples.Image_open
                      Examples.plain_embedder
                      (Examples.doc_with "text" "Paris" [("name", "a.txt")]
                         None None)) eq_refl convert_text eq_refl).
    reflexivity.
Defined.

(** ** What [embed] sees of its documents *)

Lemma for_each_Forall2 {A S} (body : S -> A -> result S) (xs ys : list A) (s : S) :
  Forall2 (fun x y => ∀ s', body s' x = body s' y) xs ys ->
  for_each body xs s = for_each body ys s.
Proof.
  intros Hxy. revert s. induction Hxy as [|x y xs ys Hx _ IH]; intros s;
    [reflexivity|].
  cbn. rewrite Hx. destruct (body s y); cbn; [apply IH|reflexivity].
Qed.

Section EmbedInputs.
Context {scalar feature pil_image : Type}.
Variable Image_open : string -> result pil_image.
Variable self : MultiModalEmbedder scalar feature pil_image.

(** Two documents that [embed] cannot tell apart. *)
Let alike (doc doc' : Document scalar) : Prop :=
  content_type doc = content_type doc'
  ∧ document_payload Image_open self doc = document_payload Image_open self doc'.

Lemma embed_batch_alike previous (batch batch' : list (Document scalar)) :
  Forall2 alike batch batch' ->
  embed_batch Image_open self previous batch
  = embed_batch Image_open self previous batch'.
Proof.
  intros Halike. unfold embed_batch, _docs_to_data.
  rewrite (for_each_Forall2 _ batch batch'); [reflexivity|].
  eapply Forall2_impl; [exact Halike|].
  intros doc doc' [Htype Hpayload] docs_data.
  now rewrite !docs_to_data_step_payload, Htype, Hpayload.
Qed.

Lemma embed_alike (documents documents' : list (Document scalar)) batch_size :
  Forall2 alike documents documents' ->
  embed Image_open self documents batch_size
  = embed Image_open self documents' batch_size.
Proof.
  intros Halike. unfold embed, batches.
  rewrite <- (Forall2_length _ _ _ Halike).
  destruct (py_range _ _) as [indices|e]; [|reflexivity].
  cbn [mbind result_bind mret result_ret].
  rewrite (for_each_Forall2 _
             (map (fun i => slice documents i (default (self_batch_size self) batch_size))
                  indices)
             (map (fun i => slice documents' i (default (self_batch_size self) batch_size))
                  indices)); [reflexivity|].
  apply Forall2_fmap, Forall_Forall2_diag, Forall_forall.
  intros i _ [all_embeddings previous]. unfold embed_batch_step.
  erewrite (embed_batch_alike previous (slice documents i _) (slice documents' i _));
    [reflexivity|].
  unfold slice. now apply Forall2_take, Forall2_drop.
Qed.

(** [embed] reads nothing of a document but its content type and its
    payload: two lists of documents that agree on these, one by one, are
    embedded alike, with the same matrix or the same error. *)
Theorem embed_reads_type_and_payload
    (documents documents' : list (Document scalar)) batch_size :
  Forall2 (fun doc doc' =>
             content_type doc = content_type doc'
             ∧ document_payload Image_open self doc
               = document_payload Image_open self doc')
          documents documents' ->
  embed Image_open self documents batch_size
  = embed Image_open self documents' batch_size.
Proof. apply embed_alike. Qed.

End EmbedInputs.

(** ** Documents and queries that cannot be embedded *)

Section EmbedFailures.
Context {scalar feature pil_image : Type}.
Variable Image_open : string -> result pil_image.
Variable self : MultiModalEmbedder scalar feature pil_image.

Lemma embed_batch_step_conversion_raises st batch (doc : Document scalar) e0 :
  doc ∈ batch ->
  document_payload Image_open self doc = Raise e0 ->
  ∃ e, embed_batch_step Image_open self st batch = Raise e.
Proof.
  intros Hin Hdoc. destruct st as [all_embeddings embeddings].
  unfold embed_batch_step, embed_batch, _docs_to_data.
  destruct (for_each_raises (docs_to_data_step Image_open self) batch
              (map (fun key => (key, [])) ContentTypes) doc Hin) as [e ->].
  - intros s'. exists e0. now rewrite docs_to_data_step_payload, Hdoc.
  - cbn. eauto.
Qed.

Lemma embed_nonpositive_batch_size (documents : list (Document scalar)) batch_size :
  (default (Retriever.batch_size self) batch_size ≤ 0)%Z ->
  ∃ msg, embed Image_open self documents batch_size = Raise (ValueError msg).
Proof.
  intros Hsize. unfold embed, self_batch_size, batches, py_range.
  destruct (decide (default (Retriever.batch_size self) batch_size = 0%Z)) as [Hz|Hnz].
  - rewrite (bool_decide_eq_true_2 _ Hz). cbn. eauto.
  - rewrite (bool_decide_eq_false_2 _ Hnz).
    rewrite bool_decide_eq_true_2 by lia. cbn. eauto.
Qed.

Lemma embed_no_document batch_size :
  ∃ msg, embed Image_open self ([] : list (Document scalar)) batch_size
         = Raise (ValueError msg).
Proof.
  destruct (Z_le_gt_dec (default (Retriever.batch_size self) batch_size) 0)
    as [Hle|Hgt].
  - now apply embed_nonpositive_batch_size.
  - unfold embed, self_batch_size, batches, py_range.
    rewrite bool_decide_eq_false_2 by lia.
    rewrite bool_decide_eq_false_2 by lia. cbn.
    rewrite Nat.div_small by lia. cbn. eauto.
Qed.

Lemma embed_conversion_raises (documents : list (Document scalar)) batch_size doc e0 :
  doc ∈ documents ->
  document_payload Image_open self doc = Raise e0 ->
  ∃ e, embed Image_open self documents batch_size = Raise e.
Proof.
  intros Hin Hdoc.
  destruct (Z_le_gt_dec (default (Retriever.batch_size self) batch_size) 0)
    as [Hle|Hgt].
  { destruct (embed_nonpositive_batch_size documents batch_size Hle) as [msg ->].
    eauto. }
  assert (Hpos : (0 < default (Retriever.batch_size self) batch_size)%Z) by lia.
  unfold embed, self_batch_size.
  destruct (batches_ok documents _ Hpos) as [bl Hbl]. rewrite Hbl. cbn.
  pose proof (batches_concat documents _ bl Hpos Hbl) as Hcat.
  rewrite <- Hcat in Hin. apply list_elem_of_In, in_concat in Hin.
  destruct Hin as (batch & Hbatch & Hdocin).
  apply list_elem_of_In in Hbatch, Hdocin.
  destruct (for_each_raises (embed_batch_step Image_open self) bl ([], None)
              batch Hbatch) as [e ->].
  - intros s'. now apply (embed_batch_step_conversion_raises s' batch doc e0).
  - cbn. eauto.
Qed.

(** [embed] never returns a matrix for an empty list of documents, nor for
    a batch size that is not positive.  With the batch size zero it is
    [range] that raises the [ValueError]; otherwise no batch is processed
    and it is [np.concatenate], which is given no block. *)
Theorem embed_needs_documents_and_batches
    (documents : list (Document scalar)) batch_size :
  (documents = [] ∨ (default (Retriever.batch_size self) batch_size ≤ 0)%Z) ->
  embed Image_open self documents batch_size
  = Raise (ValueError
             (if bool_decide (default (Retriever.batch_size self) batch_size = 0%Z)
              then "range() arg 3 must not be zero"
              else "need at least one array to concatenate")).
Proof.
  intros Hcase. unfold embed, self_batch_size, batches, py_range.
  case_bool_decide as Hzero; [reflexivity|].
  case_bool_decide as Hneg; [reflexivity|].
  destruct Hcase as [-> | Hsize]; [|lia].
  cbn [length mbind result_bind]. rewrite Nat.div_small by lia. reflexivity.
Qed.

(** A single document that cannot be converted, such as a text whose
    content is the empty string, makes the whole call fail, whatever the
    other documents and the batch size. *)
Theorem embed_fails_on_unconvertible_document
    (documents : list (Document scalar)) batch_size doc e0 :
  doc ∈ documents ->
  document_payload Image_open self doc = Raise e0 ->
  ∃ e, embed Image_open self documents batch_size = Raise e.
Proof. apply embed_conversion_raises. Qed.

End EmbedFailures.

Lemma embed_needs_documents_and_batches_witness :
  embed Examples.Image_open Examples.embedder [] None
  = Raise (ValueError "need at least one array to concatenate")
  ∧ embed Examples.Image_open Examples.embedder [Examples.doc "text" "a"] (Some (-1)%Z)
    = Raise (ValueError "need at least one array to concatenate")
  ∧ embed Examples.Image_open Examples.embedder [Examples.doc "text" "a"] (Some 0%Z)
    = Raise (ValueError "range() arg 3 must not be zero").
Proof.
  split; [|split].
  - apply (embed_needs_documents_and_batches Examples.Image_open Examples.embedder
             [] None). left. reflexivity.
  - apply (embed_needs_documents_and_batches Examples.Image_open Examples.embedder
             [Examples.doc "text" "a"] (Some (-1)%Z)). right. cbn. lia.
  - apply (embed_needs_documents_and_batches Examples.Image_open Examples.embedder
             [Examples.doc "text" "a"] (Some 0%Z)). right. cbn. lia.
Defined.

Lemma embed_fails_on_unconvertible_document_witness :
  ∃ e, embed Examples.Image_open Examples.embedder
         [Examples.doc "text" "a"; Examples.doc "text" ""; Examples.doc "text" "b"]
         (Some 2%Z) = Raise e.
Proof.
  apply (embed_fails_on_unconvertible_document Examples.Image_open Examples.embedder
           _ _ (Examples.doc "text" "") IndexError).
  - apply list_elem_of_further, list_elem_of_here.
  - reflexivity.
Defined.

(** ** Queries *)

Section Queries.
Context {scalar feature pil_image : Type}.
Variable Image_open : string -> result pil_image.
Variable self : MultiModalRetriever scalar feature pil_image.

Lemma text_query_payload (embedder : MultiModalEmbedder scalar feature pil_image)
    (query : string) :
  document_payload Image_open embedder (new_document query "text")
  = c ← PyStr.last query;
    mret (PStr (if Ascii.eqb c "?" then PyStr.but_last query else query)).
Proof.
  unfold document_payload, new_document. cbn [content_type content meta].
  assert (Hget : dict_get "text" (DOCUMENT_CONVERTERS (scalar:=scalar) Image_open)
                 = Some convert_text) by reflexivity.
  rewrite Hget. cbn [mbind result_bind]. unfold convert_text. cbn [content].
  destruct (PyStr.last query) as [c|e]; [|reflexivity].
  cbn [mbind result_bind mret result_ret default from_option id fmap list_fmap].
  assert (Hjoin : bool_decide (PyStr.join " " [] ≠ "") = false) by reflexivity.
  rewrite Hjoin. now destruct (_ && _).
Qed.

(** A text query that is the empty string cannot be embedded: [retrieve]
    raises an [IndexError] for it, and [retrieve_batch] fails for every
    list of text queries that contains it. *)
Theorem retrieve_empty_text_query
    (queries : list string) filter filters top_k index headers batch_size scale_score :
  retrieve Image_open self "" "text" filter top_k index headers scale_score
  = Raise IndexError
  ∧ ("" ∈ queries ->
     ∃ e, retrieve_batch Image_open self queries "text" filters top_k index headers
            batch_size scale_score = Raise e).
Proof.
  split.
  - unfold retrieve, retrieve_batch, query_calls. cbn [filters_list_of length].
    rewrite bool_decide_eq_false_2 by (intros H; now apply H).
    cbn [mbind result_bind map]. unfold embed.
    assert (Hb : batches [new_document (scalar:=scalar) "" "text"] (default (self_batch_size (query_embedder self)) (Some 1%Z))
                 = Ok [[new_document "" "text"]]) by reflexivity.
    rewrite Hb. cbn [mbind result_bind for_each].
    unfold embed_batch_step, embed_batch, _docs_to_data.
    cbn [for_each]. rewrite docs_to_data_step_payload, text_query_payload.
    reflexivity.
  - intros Hin. unfold retrieve_batch, query_calls.
    destruct (filters_list_of filters queries) as [fl|e]; [|cbn; eauto].
    cbn [mbind result_bind].
    destruct (embed_conversion_raises Image_open (query_embedder self)
                (map (fun query => new_document query "text") queries)
                batch_size (new_document "" "text") IndexError) as [e ->].
    + apply list_elem_of_fmap. eauto.
    + now rewrite text_query_payload.
    + cbn. eauto.
Qed.

(** A question mark at the end of a text query is not embedded: queries
    that do not end with one are looked up as the same queries followed by
    a question mark are. *)
Theorem retrieve_batch_ignores_final_question_mark
    (queries : list string) filters top_k index headers batch_size scale_score :
  Forall (fun query => ∃ init c, query = init +:+ String c "" ∧ c ≠ "?"%char)
         queries ->
  retrieve_batch Image_open self (map (fun query => query +:+ "?") queries) "text"
    filters top_k index headers batch_size scale_score
  = retrieve_batch Image_open self queries "text"
      filters top_k index headers batch_size scale_score.
Proof.
  intros Hqueries. unfold retrieve_batch, query_calls.
  assert (Hfilters : filters_list_of filters (map (fun query => query +:+ "?") queries)
                     = filters_list_of filters queries).
  { unfold filters_list_of. now rewrite length_map. }
  rewrite Hfilters.
  destruct (filters_list_of filters queries) as [fl|e]; [|reflexivity].
  cbn [mbind result_bind].
  rewrite (embed_alike Image_open (query_embedder self)
             (map (fun query => new_document query "text")
                  (map (fun query => query +:+ "?") queries))
             (map (fun query => new_document query "text") queries));
    [reflexivity|].
  rewrite map_map. apply Forall2_fmap, Forall_Forall2_diag.
  eapply Forall_impl; [exact Hqueries|].
  intros query (init & c & -> & Hc). split; [reflexivity|].
  rewrite !text_query_payload.
  change ((init +:+ String c "") +:+ "?")
    with ((init +:+ String c "") +:+ String "?" "").
  rewrite !last_snoc, !but_last_snoc. cbn.
  now rewrite (proj2 (Ascii.eqb_neq c "?") Hc).
Qed.

(** [retrieve_batch] never returns for an empty list of queries: either
    the filters are rejected or the embedding of no document raises a
    [ValueError]. *)
Theorem retrieve_batch_no_query
    content_type filters top_k index headers batch_size scale_score :
  retrieve_batch Image_open self [] content_type filters top_k index headers
    batch_size scale_score
  = Raise (MultiModalRetrieverError filter_count_message)
  ∨ ∃ msg, retrieve_batch Image_open self [] content_type filters top_k index
             headers batch_size scale_score = Raise (ValueError msg).
Proof.
  unfold retrieve_batch, query_calls.
  destruct (filters_list_of filters []) as [fl|e] eqn:Hfl.
  - right. cbn [mbind result_bind map].
    destruct (embed_no_document Image_open (query_embedder self) batch_size)
      as [msg ->].
    cbn. eauto.
  - left. destruct filters as [|f|l]; cbn in Hfl; [discriminate| |];
      case_bool_decide; try discriminate; injection Hfl as <-; reflexivity.
Qed.

End Queries.

Lemma retrieve_batch_ignores_final_question_mark_witness :
  retrieve_batch Examples.Image_open Examples.retriever
    (map (fun query => query +:+ "?") ["why"; "how"]) "text"
    NoFilters None None None None None
  = retrieve_batch Examples.Image_open Examples.retriever ["why"; "how"] "text"
      NoFilters None None None None None.
Proof.
  apply retrieve_batch_ignores_final_question_mark.
  repeat constructor.
  - exists "wh", "y"%char. split; [reflexivity|discriminate].
  - exists "ho", "w"%char. split; [reflexivity|discriminate].
Defined.

(** ** A content type without model, and widths that differ across batches *)

Section EncoderFailures.
Context {scalar feature pil_image : Type}.
Variable Image_open : string -> result pil_image.
Variable self : MultiModalEmbedder scalar feature pil_image.

Lemma feature_extractors_of_models (t : string) :
  NoDup ((models self).*1) ->
  dict_get t (feature_extractors self)
  = match dict_get t (models self) with
    | Some (LanguageModel _ fe) => Some fe
    | Some (SentenceTransformer _) | None => None
    end.
Proof.
  unfold feature_extractors, dict_get.
  induction (models self) as [|[k enc] ms IH]; intros Hnodup; [reflexivity|].
  apply NoDup_cons in Hnodup as [Hk Hnodup]. cbn.
  destruct (decide (k = t)) as [->|Hne].
  - rewrite bool_decide_eq_true_2 by reflexivity.
    destruct enc as [encode|lm fe]; cbn.
    + assert (Hnone : find (fun kv : string * FeatureExtractor feature pil_image =>
                              bool_decide (kv.1 = t))
                        (omap (fun kv : string * Encoder scalar feature pil_image =>
                                 match kv.2 with
                                 | SentenceTransformer _ => None
                                 | LanguageModel _ fe => Some (kv.1, fe)
                                 end) ms) = None).
      { destruct (find _ _) as [[k' fe']|] eqn:Hfind; [exfalso|reflexivity].
        apply find_some in Hfind as [Hin Hb].
        apply bool_decide_eq_true in Hb. cbn in Hb. subst k'.
        apply Hk. apply list_elem_of_In in Hin.
        apply list_elem_of_omap in Hin as ([k'' enc''] & Hin & Heq).
        cbn in Heq. destruct enc'' as [|lm'' fe'']; [discriminate|].
        injection Heq as -> ->.
        apply list_elem_of_fmap. exists (t, LanguageModel lm'' fe').
        split; [reflexivity|exact Hin]. }
      now rewrite Hnone.
    + now rewrite bool_decide_eq_true_2 by reflexivity.
  - rewrite bool_decide_eq_false_2 by exact Hne.
    destruct enc as [encode|lm fe]; cbn.
    + now apply IH.
    + rewrite bool_decide_eq_false_2 by exact Hne. now apply IH.
Qed.

Lemma feature_extractors_none (t : string) :
  dict_get t (models self) = None -> dict_get t (feature_extractors self) = None.
Proof.
  unfold feature_extractors, dict_get.
  induction (models self) as [|[k enc] ms IH]; [reflexivity|]. cbn.
  case_bool_decide as Hk; [discriminate|]. intros Hnone.
  destruct enc as [encode|lm fe]; cbn; [now apply IH|].
  rewrite bool_decide_eq_false_2 by exact Hk. now apply IH.
Qed.

(** When [embed] reaches a batch of documents of one content type for
    which no model was initialized, it raises the [ModelingError] that
    names the content type and lists the initialized models. *)
Theorem embed_missing_model
    (documents : list (Document scalar)) batch_size earlier batch later st t data :
  batches documents (default (Retriever.batch_size self) batch_size)
  = Ok (earlier ++ batch :: later) ->
  for_each (embed_batch_step Image_open self) earlier ([], None) = Ok st ->
  batch ≠ [] ->
  (∀ doc, doc ∈ batch -> content_type doc = t) ->
  map_result (document_payload Image_open self) batch = Ok data ->
  dict_get t (models self) = None ->
  embed Image_open self documents batch_size
  = Raise (ModelingError (no_model_message self t)).
Proof.
  intros Hbl Hearlier Hne Htype Hdata Hmodel.
  unfold embed, self_batch_size. rewrite Hbl. cbn [mbind result_bind].
  erewrite (for_each_stops _ _ _ _ _ _ _ Hearlier); [reflexivity|].
  destruct st as [all_embeddings previous].
  unfold embed_batch_step, embed_batch.
  rewrite (docs_to_data_single_type Image_open self t batch data Hne Htype Hdata).
  cbn [mbind result_bind for_each]. unfold embed_type_step, features_of.
  rewrite (feature_extractors_none t Hmodel).
  cbn [mbind result_bind app map_result]. unfold model_output.
  now rewrite Hmodel.
Qed.

(** The embedding sizes are compared inside a batch only.  When every
    batch holds a single content type and two batches are embedded with
    different widths, no [ModelingError] is raised: the call fails at the
    end, when the blocks are concatenated, with a [ValueError]. *)
Theorem embed_width_mismatch_across_batches
    (documents : list (Document scalar)) batch_size bl
    (rows : list (Document scalar) -> list (list scalar))
    (width : list (Document scalar) -> nat) batch1 batch2 :
  (0 < default (Retriever.batch_size self) batch_size)%Z ->
  batches documents (default (Retriever.batch_size self) batch_size) = Ok bl ->
  (∀ batch, batch ∈ bl ->
     width batch ≠ 0%nat
     ∧ ∃ t data inputs,
         (∀ doc, doc ∈ batch -> content_type doc = t)
         ∧ map_result (document_payload Image_open self) batch = Ok data
         ∧ features_of self t data = Ok inputs
         ∧ model_output self t (t, inputs)
           = Ok (t, mkTensor (rows batch) (width batch))) ->
  batch1 ∈ bl -> batch2 ∈ bl -> width batch1 ≠ width batch2 ->
  ∃ msg, embed Image_open self documents batch_size = Raise (ValueError msg).
Proof.
  intros Hpos Hbl Hbatches H1 H2 Hwidth.
  unfold embed, self_batch_size. rewrite Hbl. cbn [mbind result_bind].
  destruct (for_each_batches_blocks Image_open self bl
              (fun batch => mkTensor (rows batch) (width batch)) [] None)
    as [last ->].
  { intros batch Hbatch previous.
    destruct (Hbatches batch Hbatch) as (Hw & t & data & inputs & Ht & Hdata & Hf & Hm).
    apply (embed_batch_single_type Image_open self t batch data inputs);
      try assumption.
    now apply (batches_nonempty documents _ bl batch Hpos Hbl). }
  cbn [mbind result_bind fst app]. unfold np_concatenate.
  destruct bl as [|batch0 bl]; [inversion H1|]. cbn [map].
  destruct (forallb _ _) eqn:Hall; [exfalso|eauto].
  rewrite forallb_forall in Hall.
  assert (Hsame : ∀ batch, batch ∈ batch0 :: bl -> width batch = width batch0).
  { intros batch Hbatch.
    assert (Hin : In (mkTensor (rows batch) (width batch))
                     (mkTensor (rows batch0) (width batch0)
                      :: map (fun batch => mkTensor (rows batch) (width batch)) bl)).
    { apply list_elem_of_In in Hbatch.
      change (In ((fun batch => mkTensor (rows batch) (width batch)) batch)
                 (map (fun batch => mkTensor (rows batch) (width batch))
                      (batch0 :: bl))).
      now apply in_map. }
    specialize (Hall _ Hin). now apply bool_decide_eq_true in Hall. }
  rewrite (Hsame _ H1), (Hsame _ H2) in Hwidth. now apply Hwidth.
Qed.

End EncoderFailures.

Lemma embed_missing_model_witness :
  embed Examples.Image_open Examples.image_embedder
    [Examples.doc "image" "b.png"; Examples.doc "text" "hi"] (Some 1%Z)
  = Raise (ModelingError
             ("Some input tensor were passed for models handling text data, "
              +:+ "but no such model was initialized. They will be ignored."
              +:+ "Initialized models: image")).
Proof.
  apply (embed_missing_model Examples.Image_open Examples.image_embedder
           _ _ [[Examples.doc "image" "b.png"]] [Examples.doc "text" "hi"] []
           ([mkTensor [[5; 1]]%Z 2], Some (mkTensor [[5; 1]]%Z 2))
           "text" [PStr "hi"]).
  - vm_compute. reflexivity.
  - vm_compute. reflexivity.
  - discriminate.
  - intros doc Hdoc. apply list_elem_of_singleton in Hdoc as ->. reflexivity.
  - vm_compute. reflexivity.
  - reflexivity.
Defined.

Lemma embed_width_mismatch_across_batches_witness :
  ∃ msg, embed Examples.Image_open Examples.mispaired_embedder
           [Examples.doc "text" "a"; Examples.doc "image" "b.png"] (Some 1%Z)
         = Raise (ValueError msg).
Proof.
  pose (width := fun batch : list (Document Z) =>
          match batch with
          | doc :: _ => if bool_decide (content_type doc = "text") then 768%nat
                        else 512%nat
          | [] => 1%nat
          end).
  apply (embed_width_mismatch_across_batches
           Examples.Image_open Examples.mispaired_embedder _ _
           [[Examples.doc "text" "a"]; [Examples.doc "image" "b.png"]]
           (fun batch => map (fun _ => replicate (width batch) 0%Z) batch) width
           [Examples.doc "text" "a"] [Examples.doc "image" "b.png"]).
  - cbn. lia.
  - vm_compute. reflexivity.
  - intros batch Hbatch.
    apply elem_of_cons in Hbatch as [->|Hbatch];
      [|apply list_elem_of_singleton in Hbatch as ->].
    + split; [discriminate|].
      exists "text", [PStr "a"], (RawData [PStr "a"]).
      repeat split; try (vm_compute; reflexivity).
      intros doc Hdoc. apply list_elem_of_singleton in Hdoc as ->. reflexivity.
    + split; [discriminate|].
      exists "image", [PImage "b.png"], (RawData [PImage "b.png"]).
      repeat split; try (vm_compute; reflexivity).
      intros doc Hdoc. apply list_elem_of_singleton in Hdoc as ->. reflexivity.
  - apply list_elem_of_here.
  - apply list_elem_of_further, list_elem_of_here.
  - discriminate.
Defined.

(** ** Sentence-transformers models next to wrappers *)

Section MixedEncoders.
Context {scalar feature pil_image : Type}.
Variable Image_open : string -> result pil_image.
Variable self : MultiModalEmbedder scalar feature pil_image.

Lemma embed_type_step_keys st item st' :
  embed_type_step self st item = Ok st' ->
  ∃ inputs, st'.1 = st.1 ++ [(item.1, inputs)].
Proof.
  destruct st as [features_by_type previous], item as [data_type data_list].
  unfold embed_type_step.
  destruct (features_of self data_type data_list) as [inputs|e]; [|discriminate].
  cbn [mbind result_bind].
  destruct (map_result _ _) as [outputs|e]; [|discriminate].
  cbn [mbind result_bind].
  destruct (negb _); [discriminate|].
  destruct (torch_stack _) as [stacked|e]; [|discriminate].
  cbn [mbind result_bind].
  destruct (view_rows _ _) as [block|e]; [|discriminate].
  cbn. intros [= <-]. eauto.
Qed.

Lemma for_each_type_steps_keys groups st st' :
  for_each (embed_type_step self) groups st = Ok st' ->
  st'.1.*1 = st.1.*1 ++ groups.*1.
Proof.
  revert st. induction groups as [|item groups IH]; intros st.
  - cbn. intros [= <-]. now rewrite app_nil_r.
  - cbn [for_each].
    destruct (embed_type_step self st item) as [st1|e] eqn:Hstep; [|discriminate].
    cbn [mbind result_bind]. intros Hrest. rewrite (IH _ Hrest).
    destruct (embed_type_step_keys _ _ _ Hstep) as [inputs ->].
    rewrite fmap_app. cbn. now rewrite <- app_assoc.
Qed.

(** The loop over the content types of a batch fails as soon as it gets
    to a content type under whose branch the model of an earlier content
    type cannot be called. *)
Lemma for_each_type_steps_clash before data_type data_list after earlier_type st :
  earlier_type ∈ before.*1 ->
  (∀ inputs, ∃ e, model_output self data_type (earlier_type, inputs) = Raise e) ->
  ∃ e, for_each (embed_type_step self)
         (before ++ (data_type, data_list) :: after) st = Raise e.
Proof.
  intros Hearlier Hclash. rewrite for_each_app.
  destruct (for_each (embed_type_step self) before st) as [[fbt previous]|e]
    eqn:Hbefore; [|cbn; eauto].
  cbn [mbind result_bind for_each].
  apply for_each_type_steps_keys in Hbefore. cbn in Hbefore.
  assert (Hin : earlier_type ∈ fbt.*1) by (rewrite Hbefore; set_solver).
  apply list_elem_of_fmap in Hin as ([key inputs] & -> & Hin). cbn in Hclash.
  unfold embed_type_step.
  destruct (features_of self data_type data_list) as [features|e]; [|cbn; eauto].
  cbn [mbind result_bind].
  destruct (Hclash inputs) as [e0 He0].
  destruct (map_result_raises (model_output self data_type)
              (fbt ++ [(data_type, features)]) (key, inputs) e0) as [e ->];
    [set_solver|exact He0|].
  cbn. eauto.
Qed.

(** A batch never yields a matrix when it holds documents of two content
    types of which one is served by a sentence-transformers model and the
    other by a wrapper with its feature extractor: whichever comes second
    in the order text, table, image, its pass calls the model of the first
    in the way of its own kind. *)
Theorem embed_mixed_encoder_kinds
    (documents : list (Document scalar)) batch_size bl batch groups
    t1 t2 encode lm fe :
  NoDup ((models self).*1) ->
  batches documents (default (Retriever.batch_size self) batch_size) = Ok bl ->
  batch ∈ bl ->
  _docs_to_data Image_open self batch = Ok groups ->
  t1 ∈ groups.*1 -> t2 ∈ groups.*1 ->
  dict_get t1 (models self) = Some (SentenceTransformer encode) ->
  dict_get t2 (models self) = Some (LanguageModel lm fe) ->
  ∃ e, embed Image_open self documents batch_size = Raise e.
Proof.
  intros Hnodup Hbl Hbatch Hgroups Hin1 Hin2 Hm1 Hm2.
  assert (Hne : t1 ≠ t2) by (intros ->; congruence).
  assert (Hclash12 : ∀ inputs, ∃ e, model_output self t2 (t1, inputs) = Raise e).
  { intros inputs. unfold model_output. rewrite Hm1.
    rewrite (feature_extractors_of_models self t2 Hnodup), Hm2.
    destruct inputs; eauto. }
  assert (Hclash21 : ∀ inputs, ∃ e, model_output self t1 (t2, inputs) = Raise e).
  { intros inputs. unfold model_output. rewrite Hm2.
    rewrite (feature_extractors_of_models self t1 Hnodup), Hm1. eauto. }
  assert (Hloop : ∀ st, ∃ e, for_each (embed_type_step self) groups st = Raise e).
  { intros st.
    apply list_elem_of_fmap in Hin1 as ([k1 d1] & -> & Hin1).
    cbn [fst] in Hne, Hclash12, Hclash21.
    apply list_elem_of_split in Hin1 as (g1 & g2 & ->).
    rewrite fmap_app, fmap_cons in Hin2. cbn in Hin2.
    apply elem_of_app in Hin2 as [Hin2|Hin2].
    - apply list_elem_of_fmap in Hin2 as ([k2 d2] & -> & Hin2).
      apply (for_each_type_steps_clash g1 k1 d1 g2 k2 st).
      + apply list_elem_of_fmap. exists (k2, d2). split; [reflexivity|exact Hin2].
      + exact Hclash21.
    - apply elem_of_cons in Hin2 as [Heq|Hin2]; [congruence|].
      apply list_elem_of_fmap in Hin2 as ([k2 d2] & -> & Hin2).
      apply list_elem_of_split in Hin2 as (g2a & g2b & ->).
      rewrite app_comm_cons, app_assoc.
      apply (for_each_type_steps_clash (g1 ++ (k1, d1) :: g2a) k2 d2 g2b k1 st).
      + rewrite fmap_app, fmap_cons. set_solver.
      + exact Hclash12. }
  unfold embed, self_batch_size. rewrite Hbl. cbn [mbind result_bind].
  destruct (for_each_raises (embed_batch_step Image_open self) bl ([], None)
              batch Hbatch) as [e ->]; [|cbn; eauto].
  intros [all_embeddings previous]. unfold embed_batch_step, embed_batch.
  rewrite Hgroups. cbn [mbind result_bind].
  destruct (Hloop ([], previous)) as [e ->]. cbn. eauto.
Qed.

End MixedEncoders.

Lemma embed_mixed_encoder_kinds_witness :
  ∃ e, embed Examples.Image_open Examples.hybrid_embedder
         [Examples.doc "image" "b.png"; Examples.doc "text" "a"] None = Raise e.
Proof.
  apply (embed_mixed_encoder_kinds Examples.Image_open Examples.hybrid_embedder
           _ _ [[Examples.doc "image" "b.png"; Examples.doc "text" "a"]]
           [Examples.doc "image" "b.png"; Examples.doc "text" "a"]
           [("text", [PStr "a"]); ("image", [PImage "b.png"])]
           "text" "image" Examples.encode_rows Examples.image_model
           Examples.pixel_extractor).
  - cbn. repeat constructor; set_solver.
  - vm_compute. reflexivity.
  - apply list_elem_of_here.
  - vm_compute. reflexivity.
  - cbn. set_solver.
  - cbn. set_solver.
  - reflexivity.
  - reflexivity.
Defined.

Example embed_hybrid_single_types :
  embed Examples.Image_open Examples.hybrid_embedder
    [Examples.doc "image" "b.png"; Examples.doc "text" "a"] (Some 1%Z)
  = Ok (mkTensor [[7; 7]; [1; 0]]%Z 2)
  ∧ embed Examples.Image_open Examples.hybrid_embedder
      [Examples.doc "image" "b.png"; Examples.doc "text" "a"] (Some 2%Z)
    = Raise TypeError.
Proof. vm_compute. split; reflexivity. Qed.

(** ** The calls made on the document store *)

Section StoreCalls.
Context {scalar feature pil_image : Type}.
Variable Image_open : string -> result pil_image.
Variable self : MultiModalRetriever scalar feature pil_image.

(** [retrieve_batch] asks the store once per row of the query embeddings
    and per filter, never more often than there are queries, and returns
    one result list per call.  Every call carries the headers of the
    caller, and the index of the caller unless it is absent or empty, in
    which case it carries the index of the store. *)
Theorem retrieve_batch_calls
    queries content_type filters top_k index headers batch_size scale_score calls :
  query_calls Image_open self queries content_type filters top_k index headers
    batch_size scale_score = Ok calls ->
  (length calls ≤ length queries)%nat
  ∧ Forall (fun call =>
              call_headers call = headers
              ∧ call_index call
                = match index with
                  | Some i => if bool_decide (i = "")
                              then store_index (document_store self) else Some i
                  | None => store_index (document_store self)
                  end) calls
  ∧ ∀ results,
      retrieve_batch Image_open self queries content_type filters top_k index
        headers batch_size scale_score = Ok results ->
      length results = length calls.
Proof.
  intros Hcalls. repeat split.
  - destruct (query_calls_filters Image_open self _ _ _ _ _ _ _ _ _ Hcalls)
      as (fl & _ & Hlen & Hlook).
    rewrite <- Hlen. destruct (decide (length calls ≤ length fl)%nat) as [|Hgt];
      [assumption|exfalso].
    destruct (lookup_lt_is_Some_2 calls (length fl) ltac:(lia)) as [call Hcall].
    specialize (Hlook _ _ Hcall). apply lookup_lt_Some in Hlook. lia.
  - unfold query_calls in Hcalls.
    destruct (filters_list_of filters queries) as [fl|e];
      cbn in Hcalls; [|discriminate].
    destruct (embed _ _ _ _) as [emb|e]; cbn in Hcalls; [|discriminate].
    injection Hcalls as <-. apply Forall_fmap, Forall_forall.
    intros pair _. cbn. split; reflexivity.
  - intros results. unfold retrieve_batch. rewrite Hcalls.
    cbn [mbind result_bind]. apply map_result_length.
Qed.

(** A list of filters is checked against the queries before anything is
    embedded: with another length the call stops with the count-mismatch
    error, whatever the embedder.  With the same length, and with no
    filter at all, the i-th call carries the i-th row of the matrix that
    [embed] returns for the queries, together with the i-th filter of the
    list, or the empty filter when no filter was given; of a single
    filter, which is a dict, it carries the i-th key. *)
Theorem retrieve_batch_filter_list
    queries content_type (filters : FiltersArg) top_k index headers batch_size
    scale_score :
  (∀ l, filters = ListOfFilters l -> length l ≠ length queries ->
     retrieve_batch Image_open self queries content_type filters top_k index
       headers batch_size scale_score
     = Raise (MultiModalRetrieverError filter_count_message))
  ∧ ∀ calls,
      query_calls Image_open self queries content_type filters top_k index headers
        batch_size scale_score = Ok calls ->
      ∃ query_embeddings,
        embed Image_open (query_embedder self)
          (map (fun query => new_document query content_type) queries) batch_size
        = Ok query_embeddings
        ∧ ∀ i call, calls !! i = Some call ->
            t_rows query_embeddings !! i = Some (call_query_emb call)
            ∧ match filters with
              | NoFilters => call_filters call = QueryFilterDict []
              | ListOfFilters l =>
                  ∃ f, l !! i = Some f
                       ∧ call_filters call
                         = match f with
                           | Some f => QueryFilterDict f
                           | None => QueryFilterNone
                           end
              | OneFilter f =>
                  ∃ key, f.*1 !! i = Some key ∧ call_filters call = QueryFilterKey key
              end.
Proof.
  split.
  - intros l -> Hlen. unfold retrieve_batch, query_calls. cbn.
    now rewrite (bool_decide_eq_true_2 _ Hlen).
  - intros calls. unfold query_calls.
    destruct (filters_list_of filters queries) as [fl|e] eqn:Hfl; cbn; [|discriminate].
    destruct (embed _ _ _ _) as [emb|e]; cbn; [|discriminate].
    intros [= <-]. exists emb. split; [reflexivity|].
    intros i call Hcall. rewrite list_lookup_fmap in Hcall.
    destruct (zip (t_rows emb) fl !! i) as [[row f]|] eqn:Hzip; [|discriminate].
    injection Hcall as <-. cbn.
    apply lookup_zip_Some in Hzip as [Hrow Hf]. split; [exact Hrow|].
    destruct filters as [|f0|l]; cbn in Hfl.
    + injection Hfl as <-. apply lookup_replicate in Hf as [-> _]. reflexivity.
    + case_bool_decide; [discriminate|]. injection Hfl as <-.
      rewrite list_lookup_fmap in Hf.
      destruct (f0.*1 !! i) as [key|]; [|discriminate].
      injection Hf as <-. eauto.
    + case_bool_decide; [discriminate|]. injection Hfl as <-.
      rewrite list_lookup_fmap in Hf.
      destruct (l !! i) as [o|]; [|discriminate].
      injection Hf as <-. exists o. split; [reflexivity|]. now destruct o.
Qed.

End StoreCalls.

Lemma retrieve_batch_calls_witness :
  let calls := [ {| call_query_emb := [1%Z; 0%Z]; call_top_k := 3;
                    call_filters := QueryFilterNone; call_index := Some "document";
                    call_headers := Some [("token", "t")];
                    call_scale_score := true |} ] in
  (length calls ≤ length ["a"])%nat
  ∧ Forall (fun call : QueryCall Z =>
              call_headers call = Some [("token", "t")]
              ∧ call_index call = Some "document") calls
  ∧ ∀ results,
      retrieve_batch Examples.Image_open Examples.retriever ["a"] "text"
        (ListOfFilters [None]) (Some 3%Z) (Some "") (Some [("token", "t")]) None None
      = Ok results ->
      length results = length calls.
Proof.
  intros calls.
  apply (retrieve_batch_calls Examples.Image_open Examples.retriever ["a"] "text"
           (ListOfFilters [None]) (Some 3%Z) (Some "") (Some [("token", "t")])
           None None calls).
  vm_compute. reflexivity.
Defined.

Lemma embed_reads_type_and_payload_witness :
  embed Examples.Image_open Examples.embedder
    [Examples.doc_with "text" "why?" [("name", "a.txt")] None None;
     Examples.doc_with "image" "b.png" [] None None] (Some 1%Z)
  = embed Examples.Image_open Examples.embedder
      [Examples.doc_with "text" "why" [("name", "b.txt")] (Some [4%Z]) (Some 1%Z);
       Examples.doc_with "image" "b.png" [("name", "b.png")] None (Some 9%Z)]
      (Some 1%Z).
Proof.
  apply embed_reads_type_and_payload.
  repeat constructor.
Defined.

(** ** Feature extraction and the validation of [forward], seen from [embed] *)

Section WrapperFailures.
Context {scalar feature pil_image : Type}.
Variable Image_open : string -> result pil_image.
Variable self : MultiModalEmbedder scalar feature pil_image.

Lemma embed_type_failure
    (documents : list (Document scalar)) batch_size earlier batch later st t data e :
  batches documents (default (Retriever.batch_size self) batch_size)
  = Ok (earlier ++ batch :: later) ->
  for_each (embed_batch_step Image_open self) earlier ([], None) = Ok st ->
  batch ≠ [] ->
  (∀ doc, doc ∈ batch -> content_type doc = t) ->
  map_result (document_payload Image_open self) batch = Ok data ->
  embed_type_step self ([], st.2) (t, data) = Raise e ->
  embed Image_open self documents batch_size = Raise e.
Proof.
  intros Hbl Hearlier Hne Htype Hdata Hstep.
  unfold embed, self_batch_size. rewrite Hbl. cbn [mbind result_bind].
  erewrite (for_each_stops _ _ _ _ _ _ _ Hearlier); [reflexivity|].
  destruct st as [all_embeddings previous].
  unfold embed_batch_step, embed_batch.
  rewrite (docs_to_data_single_type Image_open self t batch data Hne Htype Hdata).
  cbn [mbind result_bind for_each]. cbn [snd] in Hstep. now rewrite Hstep.
Qed.

(** The names of the features are validated by [forward], and [embed]
    lets its error through: when [embed] reaches a batch of one content
    type that is served by a wrapper, and the feature extractor yields
    features whose names the wrapper does not accept, [embed] raises the
    [ModelingError] of [forward] that lists the names. *)
Theorem embed_surfaces_forward_validation
    (documents : list (Document scalar)) batch_size earlier batch later st t data
    lm fe features :
  NoDup ((models self).*1) ->
  batches documents (default (Retriever.batch_size self) batch_size)
  = Ok (earlier ++ batch :: later) ->
  for_each (embed_batch_step Image_open self) earlier ([], None) = Ok st ->
  batch ≠ [] ->
  (∀ doc, doc ∈ batch -> content_type doc = t) ->
  map_result (document_payload Image_open self) batch = Ok data ->
  dict_get t (models self) = Some (LanguageModel lm fe) ->
  get_features data t fe = Ok features ->
  dom features ≠ ∅ ->
  ¬ ((expected_inputs (lm_class lm)).1 ⊆ dom features
     ∧ dom features ⊆ (expected_inputs (lm_class lm)).1
                      ∪ (expected_inputs (lm_class lm)).2) ->
  embed Image_open self documents batch_size
  = Raise (ModelingError
             (forward_error_message features (expected_inputs (lm_class lm)).1
                ((expected_inputs (lm_class lm)).1
                 ∪ (expected_inputs (lm_class lm)).2))).
Proof.
  intros Hnodup Hbl Hearlier Hne Htype Hdata Hmodel Hfeatures Hdom Hnames.
  apply (embed_type_failure documents batch_size earlier batch later st t data);
    try assumption.
  unfold embed_type_step, features_of.
  rewrite (feature_extractors_of_models self t Hnodup), Hmodel, Hfeatures.
  cbn [mbind result_bind]. rewrite (bool_decide_eq_false_2 _ Hdom).
  cbn [mbind result_bind app map_result]. unfold model_output.
  rewrite Hmodel, (feature_extractors_of_models self t Hnodup), Hmodel.
  rewrite forward_unfold.
  destruct (bool_decide _ && bool_decide _) eqn:Hboth; [exfalso|reflexivity].
  apply andb_true_iff in Hboth as [H1 H2].
  apply bool_decide_eq_true_1 in H1, H2. apply Hnames. now split.
Qed.

(** When the feature extractor of the content type yields no feature at
    all, [embed] raises the [ModelingError] about the extraction, whose
    message names the data type and ends with the text of the dict of the
    feature extractors, whatever the wrapper. *)
Theorem embed_empty_features
    (documents : list (Document scalar)) batch_size earlier batch later st t data
    lm fe :
  NoDup ((models self).*1) ->
  batches documents (default (Retriever.batch_size self) batch_size)
  = Ok (earlier ++ batch :: later) ->
  for_each (embed_batch_step Image_open self) earlier ([], None) = Ok st ->
  batch ≠ [] ->
  (∀ doc, doc ∈ batch -> content_type doc = t) ->
  map_result (document_payload Image_open self) batch = Ok data ->
  dict_get t (models self) = Some (LanguageModel lm fe) ->
  get_features data t fe = Ok ∅ ->
  embed Image_open self documents batch_size
  = Raise (ModelingError
             ("Could not extract features for data of type " +:+ t +:+ ". "
              +:+ "Check that your feature extractor is correct for this data type:"
              +:+ PyStr.newline
              +:+ "{" +:+ PyStr.join ", "
                            (map (fun kv => "'" +:+ kv.1 +:+ "': "
                                            +:+ extractor_repr kv.2)
                                 (feature_extractors self))
              +:+ "}")).
Proof.
  intros Hnodup Hbl Hearlier Hne Htype Hdata Hmodel Hfeatures.
  apply (embed_type_failure documents batch_size earlier batch later st t data);
    try assumption.
  unfold embed_type_step, features_of.
  rewrite (feature_extractors_of_models self t Hnodup), Hmodel, Hfeatures.
  cbn [mbind result_bind].
  now rewrite bool_decide_eq_true_2 by apply dom_empty_L.
Qed.

End WrapperFailures.

Lemma embed_surfaces_forward_validation_witness :
  embed Examples.Image_open Examples.token_embedder [Examples.doc "text" "a"] None
  = Raise (ModelingError
             ("The input parameters do not match the model's expectations."
              +:+ PyStr.newline +:+ "Input names: input_ids" +:+ PyStr.newline
              +:+ "Expected: attention_mask, input_ids, token_type_ids "
              +:+ "(where attention_mask, input_ids, token_type_ids are mandatory)")).
Proof.
  rewrite (embed_surfaces_forward_validation Examples.Image_open
             Examples.token_embedder
             _ _ [] [Examples.doc "text" "a"] [] ([], None) "text" [PStr "a"]
             Examples.text_model Examples.token_extractor {[ "input_ids" := 0%Z ]}).
  - vm_compute. reflexivity.
  - cbn. repeat constructor; set_solver.
  - vm_compute. reflexivity.
  - reflexivity.
  - discriminate.
  - intros doc Hdoc. apply list_elem_of_singleton in Hdoc as ->. reflexivity.
  - vm_compute. reflexivity.
  - reflexivity.
  - reflexivity.
  - rewrite dom_singleton_L. set_solver.
  - rewrite dom_singleton_L. cbn. set_solver.
Defined.

Lemma embed_empty_features_witness :
  embed Examples.Image_open Examples.silent_embedder [Examples.doc "text" "a"] None
  = Raise (ModelingError
             ("Could not extract features for data of type text. "
              +:+ "Check that your feature extractor is correct for this data type:"
              +:+ PyStr.newline
              +:+ "{'text': <FeatureExtractor object at 0x7f03>}")).
Proof.
  rewrite (embed_empty_features Examples.Image_open Examples.silent_embedder
             _ _ [] [Examples.doc "text" "a"] [] ([], None) "text" [PStr "a"]
             Examples.text_model Examples.empty_extractor).
  - reflexivity.
  - cbn. repeat constructor; set_solver.
  - vm_compute. reflexivity.
  - reflexivity.
  - discriminate.
  - intros doc Hdoc. apply list_elem_of_singleton in Hdoc as ->. reflexivity.
  - vm_compute. reflexivity.
  - reflexivity.
  - reflexivity.
Defined.
